(** * i2csense: BME280, HTU21D and BH1750 drivers over an SMBus transport

    A shallow embedding of the three sensor drivers of the [i2csense]
    package (src/i2csense/bme280.py, htu21d.py, bh1750.py and the base class
    in __init__.py), followed by the properties of the drivers.

    Python integers are [Z]; Python floats are IEEE binary64 numbers, the
    kernel's primitive [float]; a value that may be either is a [Py.num].
    The bus is an object the drivers only call: it is modelled by its
    answers, as a function of the calls made so far.  Driver methods are
    computations in a state-and-exception monad that also records every bus
    call, sleep and log line in order. *)

From Stdlib Require Import ZArith List Bool Lia String Floats.
From Stdlib Require Uint63.
Import ListNotations.

Set Warnings "-inexact-float".
Set Implicit Arguments.

Open Scope Z_scope.

(* ================================================================== *)
(** * Python values and effects *)
(* ================================================================== *)

Module Py.

(** A Python number: [int] or [float]. *)
Inductive num : Type :=
| Int (z : Z)
| Float (f : float).

(** [float(z)]: the binary64 number nearest to [z] (ties to even), exact
    below 2^53. *)
Definition Z2F (z : Z) : float :=
  match z with
  | Z0 => 0%float
  | Zpos _ =>
      if z <? 2 ^ 63 then of_uint63 (Uint63.of_Z z)
      else SF2Prim (binary_normalize prec emax z 0 false)
  | Zneg p =>
      if Zpos p <? 2 ^ 63 then (- of_uint63 (Uint63.of_Z (Zpos p)))%float
      else SF2Prim (binary_normalize prec emax z 0 false)
  end.

Definition to_float (n : num) : float :=
  match n with
  | Int z => Z2F z
  | Float f => f
  end.

(** Comparisons.  Two ints compare as integers; as soon as one side is a
    float the comparison is the IEEE one (every int compared with a float in
    the drivers is a small constant, exactly representable). *)
Definition ltb (a b : num) : bool :=
  match a, b with
  | Int x, Int y => Z.ltb x y
  | _, _ => PrimFloat.ltb (to_float a) (to_float b)
  end.

Definition leb (a b : num) : bool :=
  match a, b with
  | Int x, Int y => Z.leb x y
  | _, _ => PrimFloat.leb (to_float a) (to_float b)
  end.

Definition gtb (a b : num) : bool := ltb b a.
Definition geb (a b : num) : bool := leb b a.

Definition eqb (a b : num) : bool :=
  match a, b with
  | Int x, Int y => Z.eqb x y
  | _, _ => PrimFloat.eqb (to_float a) (to_float b)
  end.

(** [range(a, a + n)] *)
Fixpoint range (a : Z) (n : nat) : list Z :=
  match n with
  | O => []
  | S n' => a :: range (a + 1) n'
  end.

(** What the drivers do to the outside world, in order. *)
Inductive event : Type :=
| EWriteByte (addr value : Z)
| EWriteByteData (addr reg value : Z)
| EReadByteData (addr reg : Z)
| EReadWordData (addr reg : Z)
| EReadBlockData (addr reg len : Z)
| ESleep (seconds : float)
| ELog (level msg : string)
| EPrint (msg : string).

(** The SMBus object.  Each method answers from the history of events so
    far and its arguments; [None] is a raised [OSError]. *)
Record SMBus : Type := {
  write_byte : list event -> Z -> Z -> option unit;
  write_byte_data : list event -> Z -> Z -> Z -> option unit;
  read_byte_data : list event -> Z -> Z -> option Z;
  read_word_data : list event -> Z -> Z -> option Z;
  read_i2c_block_data : list event -> Z -> Z -> Z -> option (list Z)
}.

Inductive exn : Type := OSError | TypeError | IndexError | ZeroDivisionError.

(** How a call ends: it returns, raises, or (for the one polling loop) is
    still looping when the fuel is spent. *)
Inductive outcome (A : Type) : Type :=
| Ret (a : A)
| Raise (e : exn)
| OutOfFuel.

Arguments Raise {A} e.
Arguments OutOfFuel {A}.

(** A method on an object with fields [S]. *)
Definition M (S A : Type) : Type := S -> list event -> outcome A * S * list event.

Definition ret {S A} (a : A) : M S A := fun s t => (Ret a, s, t).

Definition bind {S A B} (m : M S A) (k : A -> M S B) : M S B :=
  fun s t =>
    match m s t with
    | (Ret a, s', t') => k a s' t'
    | (Raise e, s', t') => (Raise e, s', t')
    | (OutOfFuel, s', t') => (OutOfFuel, s', t')
    end.

Definition raise {S A} (e : exn) : M S A := fun s t => (Raise e, s, t).
Definition out_of_fuel {S A} : M S A := fun s t => (OutOfFuel, s, t).

Definition get {S} : M S S := fun s t => (Ret s, s, t).
Definition modify {S} (f : S -> S) : M S unit := fun s t => (Ret tt, f s, t).
Definition emit {S} (e : event) : M S unit := fun s t => (Ret tt, s, t ++ [e]).

(** [try: body / except OSError: handler] *)
Definition try_except {S A} (body handler : M S A) : M S A :=
  fun s t =>
    match body s t with
    | (Raise OSError, s', t') => handler s' t'
    | r => r
    end.

(** A bus call: the event is recorded, then the bus answers. *)
Definition call {S A} (e : event) (answer : list event -> option A) : M S A :=
  fun s t =>
    match answer t with
    | Some a => (Ret a, s, t ++ [e])
    | None => (Raise OSError, s, t ++ [e])
    end.

(** [l[i]] *)
Definition getitem {S} (l : list Z) (i : nat) : M S Z :=
  match nth_error l i with
  | Some v => ret v
  | None => raise IndexError
  end.

(** A list access that already failed or succeeded, brought into [M]. *)
Definition indexed {S A} (x : option A) : M S A :=
  match x with
  | Some a => ret a
  | None => raise IndexError
  end.

(** [l[i] = v], or [None] where Python raises [IndexError]. *)
Fixpoint setitem (l : list Z) (i : nat) (v : Z) : option (list Z) :=
  match l, i with
  | [], _ => None
  | _ :: l', O => Some (v :: l')
  | x :: l', S i' =>
      match setitem l' i' v with
      | Some r => Some (x :: r)
      | None => None
      end
  end.

(** [x], where [x] must not be [None] to be used as a number or a list. *)
Definition unwrap {S A} (x : option A) : M S A :=
  match x with
  | Some a => ret a
  | None => raise TypeError
  end.

(** [a / b] on floats: Python raises where IEEE returns an infinity. *)
Definition fdiv {S} (a b : float) : M S float :=
  if PrimFloat.eqb b 0 then raise ZeroDivisionError else ret (a / b)%float.



(** [if logger is not None: logger.<level>(msg) else: print(msg)] *)
Definition report {S} (logger : bool) (level msg : string) : M S unit :=
  if logger then emit (ELog level msg) else emit (EPrint msg).

Definition sleep {S} (seconds : float) : M S unit := emit (ESleep seconds).



(** [m] only takes the object to states related to the one it started in;
    [m] never ends in an uncaught [OSError]. *)
Definition keeps {S A} (R : S -> S -> Prop) (m : M S A) : Prop :=
  forall s t o s' t', m s t = (o, s', t') -> R s s'.

Definition catches {S A} (m : M S A) : Prop :=
  forall s t s' t', m s t <> (Raise OSError, s', t').

(** [m], started where [Inv] holds, ends where [Inv] holds; a value it
    returns satisfies [V] and an exception it raises satisfies [allowed]. *)
Definition safe {S A} (Inv : S -> Prop) (allowed : exn -> Prop)
    (m : M S A) (V : A -> Prop) : Prop :=
  forall s t o s' t',
    Inv s -> m s t = (o, s', t') ->
    Inv s' /\ match o with
              | Ret a => V a
              | Raise e => allowed e
              | OutOfFuel => True
              end.

(** [m] never stops for lack of fuel. *)
Definition finishes {S A} (m : M S A) : Prop :=
  forall s t o s' t', m s t = (o, s', t') -> o <> OutOfFuel.

(** Whether a bus call raised, and the line [report] then leaves in the
    trace. *)
Definition nacked {A} (answer : option A) : bool :=
  match answer with
  | Some _ => false
  | None => true
  end.

Definition complaint (logger failed : bool) (level msg : string) : list event :=
  if failed then [if logger then ELog level msg else EPrint msg] else [].

(** Bus calls and sleeps of a trace, without the log lines. *)
Definition is_report (e : event) : bool :=
  match e with
  | ELog _ _ | EPrint _ => true
  | _ => false
  end.

Definition quiet (t : list event) : list event :=
  filter (fun e => negb (is_report e)) t.

(** A bus that acknowledges every write and answers every read from fixed
    tables: a register map for bytes, one value for words and one table for
    blocks. *)
Definition table_bus (byte : Z -> option Z) (word : option Z)
    (block : Z -> option (list Z)) : SMBus :=
  {| write_byte := fun _ _ _ => Some tt;
     write_byte_data := fun _ _ _ _ => Some tt;
     read_byte_data := fun _ _ reg => byte reg;
     read_word_data := fun _ _ _ => word;
     read_i2c_block_data := fun _ _ reg _ => block reg |}.

End Py.

Import Py.

Declare Scope py_scope.
Delimit Scope py_scope with py.
Notation "x <- m ;; k" := (bind m (fun x => k))
  (at level 61, m at next level, right associativity) : py_scope.
Notation "m ;; k" := (bind m (fun _ => k))
  (at level 61, right associativity) : py_scope.
Open Scope py_scope.

Declare Scope opt_scope.
Delimit Scope opt_scope with opt.
Notation "x <-? m ;; k" :=
  (match m with Some x => k | None => None end)
  (at level 61, m at next level, right associativity) : opt_scope.

(* ================================================================== *)
(** * HTU21D temperature and humidity sensor (htu21d.py) *)
(* ================================================================== *)

Module HTU21D.

Definition I2C_ADDRESS : Z := 0x40.
Definition CMD_READ_TEMP_HOLD : Z := 0xE3.
Definition CMD_READ_HUM_HOLD : Z := 0xE5.
Definition CMD_READ_TEMP_NOHOLD : Z := 0xF3.
Definition CMD_READ_HUM_NOHOLD : Z := 0xF5.
Definition CMD_SOFT_RESET : Z := 0xFE.
Definition MEASUREMENT_WAIT_TIME : float := 0.055%float.

Record state : Type := {
  _i2c_add : Z;
  _ok : bool;
  _logger : bool;
  _temperature : num;
  _humidity : num
}.

Definition set_ok (b : bool) (s : state) : state :=
  {| _i2c_add := _i2c_add s; _ok := b; _logger := _logger s;
     _temperature := _temperature s; _humidity := _humidity s |}.

Definition set_temperature (v : num) (s : state) : state :=
  {| _i2c_add := _i2c_add s; _ok := _ok s; _logger := _logger s;
     _temperature := v; _humidity := _humidity s |}.

Definition set_humidity (v : num) (s : state) : state :=
  {| _i2c_add := _i2c_add s; _ok := _ok s; _logger := _logger s;
     _temperature := _temperature s; _humidity := v |}.

Definition _calc_temp (sensor_temp : Z) : float :=
  let t_sensor_temp := (Z2F sensor_temp / 65536.0)%float in
  (-46.85 + (175.72 * t_sensor_temp))%float.

Definition _calc_humid (sensor_humid : Z) : float :=
  let t_sensor_humid := (Z2F sensor_humid / 65536.0)%float in
  (-6.0 + (125.0 * t_sensor_humid))%float.

Definition _temp_coefficient (rh_actual temp_actual : float) : float :=
  (rh_actual - 0.15 * (25 - temp_actual))%float.

(** One turn of the loop of [_crc8check], on the pair (remainder, divisor). *)
Definition crc8_step (rd : Z * Z) (i : Z) : Z * Z :=
  let '(remainder, divisor) := rd in
  let remainder :=
    if Z.eqb (Z.land remainder (Z.shiftl 1 (23 - i))) 0
    then remainder
    else Z.lxor remainder divisor in
  (remainder, Z.shiftr divisor 1).

(** The arithmetic of [_crc8check] once the three bytes are fetched. *)
Definition crc8_remainder (v0 v1 v2 : Z) : Z :=
  let remainder := Z.shiftl (Z.shiftl v0 8 + v1) 8 in
  let remainder := Z.lor remainder v2 in
  let divisor := 0x988000 in
  fst (fold_left crc8_step (range 0 16) (remainder, divisor)).

Definition _crc8check (value : list Z) : M state bool :=
  v0 <- getitem value 0 ;;
  v1 <- getitem value 1 ;;
  v2 <- getitem value 2 ;;
  ret (Z.eqb (crc8_remainder v0 v1 v2) 0).

Section Driver.

Variable bus : SMBus.

Definition _soft_reset : M state bool :=
  s <- get ;;
  try_except
    (call (EWriteByte (_i2c_add s) CMD_SOFT_RESET)
          (fun t => write_byte bus t (_i2c_add s) CMD_SOFT_RESET) ;;
     sleep MEASUREMENT_WAIT_TIME ;;
     ret true)
    (report (_logger s) "error" "Bad writing in bus: %s" ;;
     ret false).

(** The property [sample_ok]. *)
Definition sample_ok (s : state) : bool :=
  _ok s && gtb (_temperature s) (Int (-100)) && gtb (_humidity s) (Int (-1)).

(** The bus part of [update], inside [try]; [None] is the [return] of the
    [except] branch. *)
Definition read_blocks : M state (option (list Z * list Z)) :=
  s <- get ;;
  let a := _i2c_add s in
  try_except
    (call (EWriteByte a CMD_READ_TEMP_NOHOLD)
          (fun t => write_byte bus t a CMD_READ_TEMP_NOHOLD) ;;
     sleep MEASUREMENT_WAIT_TIME ;;
     buf_t <- call (EReadBlockData a CMD_READ_TEMP_HOLD 3)
                   (fun t => read_i2c_block_data bus t a CMD_READ_TEMP_HOLD 3) ;;
     call (EWriteByte a CMD_READ_HUM_NOHOLD)
          (fun t => write_byte bus t a CMD_READ_HUM_NOHOLD) ;;
     sleep MEASUREMENT_WAIT_TIME ;;
     buf_h <- call (EReadBlockData a CMD_READ_HUM_HOLD 3)
                   (fun t => read_i2c_block_data bus t a CMD_READ_HUM_HOLD 3) ;;
     ret (Some (buf_t, buf_h)))
    (modify (set_ok false) ;;
     report (_logger s) "error" "Bad reading: %s" ;;
     ret None).

(** The rest of [update], on the two blocks read. *)
Definition store_blocks (buf_t buf_h : list Z) : M state unit :=
  crc_t <- _crc8check buf_t ;;
  if crc_t then
    t0 <- getitem buf_t 0 ;;
    t1 <- getitem buf_t 1 ;;
    let temp := Z.land (Z.lor (Z.shiftl t0 8) t1) 0xFFFC in
    modify (set_temperature (Float (_calc_temp temp))) ;;
    crc_h <- _crc8check buf_h ;;
    if crc_h then
      h0 <- getitem buf_h 0 ;;
      h1 <- getitem buf_h 1 ;;
      let humid := Z.land (Z.lor (Z.shiftl h0 8) h1) 0xFFFC in
      let rh_actual := _calc_humid humid in
      s <- get ;;
      let rh_final := _temp_coefficient rh_actual (to_float (_temperature s)) in
      let rh_final := if (100 <? rh_final)%float then 100.0%float else rh_final in
      let rh_final := if (rh_final <? 0)%float then 0.0%float else rh_final in
      modify (set_humidity (Float rh_final))
    else
      modify (set_humidity (Int (-255))) ;;
      modify (set_ok false)
  else
    modify (set_temperature (Int (-255))) ;;
    modify (set_ok false) ;;
    s <- get ;;
    report (_logger s) "error" "Bad CRC error".

Definition update : M state unit :=
  r <- read_blocks ;;
  match r with
  | None => ret tt
  | Some (buf_t, buf_h) => store_blocks buf_t buf_h
  end.

(** [HTU21D(bus, logger)] *)
Definition init (logger : bool) : M state unit :=
  modify (fun _ => {| _i2c_add := I2C_ADDRESS; _ok := false; _logger := logger;
                      _temperature := Int (-255); _humidity := Int (-255) |}) ;;
  ok <- _soft_reset ;;
  modify (set_ok ok) ;;
  if ok then update else ret tt.

End Driver.

(** [n] calls of [update] in a row. *)
Fixpoint updates (bus : SMBus) (n : nat) : M state unit :=
  match n with
  | O => ret tt
  | S n' => update bus ;; updates bus n'
  end.

(** The validity flag, once down, stays down. *)
Definition stays_invalid (s s' : state) : Prop :=
  _ok s = false -> _ok s' = false.

(** The raw temperature of a block, status bits masked, converted. *)
Definition block_temperature (t0 t1 : Z) : float :=
  _calc_temp (Z.land (Z.lor (Z.shiftl t0 8) t1) 0xFFFC).

(** The 24-bit value the check divides: two data bytes, then the CRC byte. *)
Definition block_value (v0 v1 v2 : Z) : Z := v0 * 65536 + v1 * 256 + v2.

(** Division, as the specification words it: the polynomial 0x0131
    (x^8 + x^5 + x^4 + 1) is subtracted, over GF(2), from the 24-bit value
    at each set coefficient from the most significant one down to x^8.
    [gf2_rem k poly v] clears the coefficients x^(8+k-1) ... x^8 of [v]. *)
Fixpoint gf2_rem (k : nat) (poly v : Z) : Z :=
  match k with
  | O => v
  | S k' =>
      gf2_rem k' poly
        (if Z.testbit v (8 + Z.of_nat k')
         then Z.lxor v (Z.shiftl poly (Z.of_nat k'))
         else v)
  end.

(** Carry-less product of [q] (its low [k] bits) and [poly]. *)
Fixpoint clmul (k : nat) (q poly : Z) : Z :=
  match k with
  | O => 0
  | S k' =>
      Z.lxor (if Z.testbit q (Z.of_nat k') then Z.shiftl poly (Z.of_nat k') else 0)
             (clmul k' q poly)
  end.

(** Bit [k] (0 = least significant bit of the CRC byte, 23 = most
    significant bit of the first data byte) of a block flipped. *)
Definition flip_bit (k : Z) (value : list Z) : list Z :=
  match value with
  | [v0; v1; v2] =>
      if k <? 8 then [v0; v1; Z.lxor v2 (Z.shiftl 1 k)]
      else if k <? 16 then [v0; Z.lxor v1 (Z.shiftl 1 (k - 8)); v2]
      else [Z.lxor v0 (Z.shiftl 1 (k - 16)); v1; v2]
  | _ => value
  end.

(** The fields of an object before [__init__] has run. *)
Definition blank : state :=
  {| _i2c_add := 0; _ok := false; _logger := false;
     _temperature := Int 0; _humidity := Int 0 |}.

(** The polynomial 0x0131 = x^8 + x^5 + x^4 + 1. *)
Definition POLY : Z := 0x131.

(** The three bytes laid side by side, as [_crc8check] assembles them. *)
Definition raw24 (v0 v1 v2 : Z) : Z :=
  Z.lor (Z.shiftl (Z.shiftl v0 8 + v1) 8) v2.

Definition is_byte (v : Z) : Prop := 0 <= v < 256.

Definition is_byteb (v : Z) : bool := (0 <=? v) && (v <? 256).

(** The check rejects the block that has only bit [k] set. *)
Definition unit_error_detected (k : Z) : bool :=
  match flip_bit k [0; 0; 0] with
  | [m0; m1; m2] =>
      is_byteb m0 && is_byteb m1 && is_byteb m2
      && negb (crc8_remainder m0 m1 m2 =? 0)
  | _ => false
  end.

End HTU21D.

(* ================================================================== *)
(** * BH1750 light level sensor (bh1750.py) *)
(* ================================================================== *)

Module BH1750.

(** The keys of [OPERATION_MODES]. *)
Inductive operation_mode : Type :=
| CONTINUOUS_LOW_RES_MODE
| CONTINUOUS_HIGH_RES_MODE_1
| CONTINUOUS_HIGH_RES_MODE_2
| ONE_TIME_HIGH_RES_MODE_1
| ONE_TIME_HIGH_RES_MODE_2
| ONE_TIME_LOW_RES_MODE.

Definition OPERATION_MODES (m : operation_mode) : Z * bool :=
  match m with
  | CONTINUOUS_LOW_RES_MODE => (0x13, true)
  | CONTINUOUS_HIGH_RES_MODE_1 => (0x10, true)
  | CONTINUOUS_HIGH_RES_MODE_2 => (0x11, true)
  | ONE_TIME_LOW_RES_MODE => (0x23, false)
  | ONE_TIME_HIGH_RES_MODE_1 => (0x20, false)
  | ONE_TIME_HIGH_RES_MODE_2 => (0x21, false)
  end.

Definition DEFAULT_I2C_ADDRESS : Z := 0x23.
Definition DEFAULT_MODE : operation_mode := CONTINUOUS_HIGH_RES_MODE_1.
Definition DEFAULT_DELAY_MS : num := Int 120.
Definition DEFAULT_SENSITIVITY : Z := 69.

Definition POWER_DOWN : Z := 0x00.
Definition POWER_ON : Z := 0x01.
Definition RESET : Z := 0x07.

Record state : Type := {
  _i2c_add : Z;
  _ok : bool;
  _logger : bool;
  _mode : option Z;
  _delay : float;
  _operation_mode : Z;
  _continuous_sampling : bool;
  _high_res : bool;
  _low_res : bool;
  _mtreg : option Z;
  _light_level : num
}.

Definition set_ok (b : bool) (s : state) : state :=
  {| _i2c_add := _i2c_add s; _ok := b; _logger := _logger s;
     _mode := _mode s; _delay := _delay s;
     _operation_mode := _operation_mode s;
     _continuous_sampling := _continuous_sampling s;
     _high_res := _high_res s; _low_res := _low_res s;
     _mtreg := _mtreg s; _light_level := _light_level s |}.

Definition set_mode (m : Z) (s : state) : state :=
  {| _i2c_add := _i2c_add s; _ok := _ok s; _logger := _logger s;
     _mode := Some m; _delay := _delay s;
     _operation_mode := _operation_mode s;
     _continuous_sampling := _continuous_sampling s;
     _high_res := _high_res s; _low_res := _low_res s;
     _mtreg := _mtreg s; _light_level := _light_level s |}.

Definition set_mtreg (m : Z) (s : state) : state :=
  {| _i2c_add := _i2c_add s; _ok := _ok s; _logger := _logger s;
     _mode := _mode s; _delay := _delay s;
     _operation_mode := _operation_mode s;
     _continuous_sampling := _continuous_sampling s;
     _high_res := _high_res s; _low_res := _low_res s;
     _mtreg := Some m; _light_level := _light_level s |}.

Definition set_light_level (v : num) (s : state) : state :=
  {| _i2c_add := _i2c_add s; _ok := _ok s; _logger := _logger s;
     _mode := _mode s; _delay := _delay s;
     _operation_mode := _operation_mode s;
     _continuous_sampling := _continuous_sampling s;
     _high_res := _high_res s; _low_res := _low_res s;
     _mtreg := _mtreg s; _light_level := v |}.

(** [self._operation_mode != self._mode] *)
Definition mode_differs (operation_mode : Z) (mode : option Z) : bool :=
  match mode with
  | Some m => negb (operation_mode =? m)
  | None => true
  end.

(** The test at the head of [update]. *)
Definition needs_rearm (s : state) : bool :=
  negb (_continuous_sampling s)
  || ltb (_light_level s) (Int 0)
  || mode_differs (_operation_mode s) (_mode s).

(** The 16-bit word with its two bytes exchanged, as [_get_result] does. *)
Definition swap_bytes (data : Z) : Z :=
  Z.lor (Z.shiftr data 8) (Z.shiftl (Z.land data 0xff) 8).

(** The argument of [sleep] in [_wait_for_result]. *)
Definition wait_time (low_res : bool) (mtreg : Z) (delay : float) : float :=
  let basetime := if low_res then 0.018%float else 0.128%float in
  (basetime * (Z2F mtreg / 69.0) + delay)%float.

Section Driver.

Variable bus : SMBus.

Definition _set_mode (mode : Z) : M state unit :=
  modify (set_mode mode) ;;
  s <- get ;;
  try_except
    (call (EWriteByte (_i2c_add s) mode)
          (fun t => write_byte bus t (_i2c_add s) mode) ;;
     modify (set_ok true))
    (report (_logger s) "error" "Bad writing in bus: %s" ;;
     modify (set_ok false)).

Definition _power_down : M state unit := _set_mode POWER_DOWN.

Definition _power_on : M state unit := _set_mode POWER_ON.

Definition _reset : M state unit :=
  _power_on ;;
  _set_mode RESET.

(** The property [sensitivity]. *)
Definition sensitivity (s : state) : option Z := _mtreg s.

Definition set_sensitivity (sensitivity : Z) : M state unit :=
  (if sensitivity <? 31 then modify (set_mtreg 31)
   else if 254 <? sensitivity then modify (set_mtreg 254)
   else modify (set_mtreg sensitivity)) ;;
  _power_on ;;
  s <- get ;;
  mtreg <- unwrap (_mtreg s) ;;
  _set_mode (Z.lor 0x40 (Z.shiftr mtreg 5)) ;;
  _set_mode (Z.lor 0x60 (Z.land mtreg 0x1f)) ;;
  _power_down.

Definition _get_result : M state num :=
  s <- get ;;
  r <- try_except
         (mode <- unwrap (_mode s) ;;
          data <- call (EReadWordData (_i2c_add s) mode)
                       (fun t => read_word_data bus t (_i2c_add s) mode) ;;
          modify (set_ok true) ;;
          ret (Some data))
         (report (_logger s) "error" "Bad reading in bus: %s" ;;
          modify (set_ok false) ;;
          ret None) ;;
  match r with
  | None => ret (Int (-1))
  | Some data =>
      let count := swap_bytes data in
      let mode2coeff := if _high_res s then 2 else 1 in
      mtreg <- unwrap (_mtreg s) ;;
      ratio <- fdiv 1 (1.2 * (Z2F mtreg / 69.0) * Z2F mode2coeff) ;;
      ret (Float (ratio * Z2F count))
  end.

Definition _wait_for_result : M state unit :=
  s <- get ;;
  mtreg <- unwrap (_mtreg s) ;;
  sleep (wait_time (_low_res s) mtreg (_delay s)).

Definition update : M state unit :=
  s <- get ;;
  (if needs_rearm s
   then _reset ;; _set_mode (_operation_mode s) ;; _wait_for_result
   else ret tt) ;;
  result <- _get_result ;;
  modify (set_light_level result) ;;
  if negb (_continuous_sampling s) then _power_down else ret tt.

(** The property [sample_ok], inherited from [I2cBaseClass]. *)
Definition sample_ok (s : state) : bool := _ok s.


(** [BH1750(bus, i2c_address, operation_mode, measurement_delay,
    sensitivity, logger)] *)
Definition init (i2c_address : Z) (operation_mode : operation_mode)
    (measurement_delay : num) (sensitivity : Z) (logger : bool)
  : M state unit :=
  let code := fst (OPERATION_MODES operation_mode) in
  modify (fun _ =>
    {| _i2c_add := i2c_address; _ok := false; _logger := logger;
       _mode := None;
       _delay := (to_float measurement_delay / 1000)%float;
       _operation_mode := code;
       _continuous_sampling := snd (OPERATION_MODES operation_mode);
       _high_res := Z.land code 0x03 =? 0x01;
       _low_res := Z.land code 0x03 =? 0x03;
       _mtreg := None;
       _light_level := Int (-1) |}) ;;
  _power_down ;;
  set_sensitivity sensitivity ;;
  modify (set_light_level (Int (-1))) ;;
  update.

(** [__exit__] *)
Definition exit : M state unit := _power_down.

End Driver.

(** The fields of an object before [__init__] has run; [init] overwrites
    every one of them. *)
Definition blank : state :=
  {| _i2c_add := 0; _ok := false; _logger := false; _mode := None;
     _delay := 0%float; _operation_mode := 0; _continuous_sampling := false;
     _high_res := false; _low_res := false; _mtreg := None;
     _light_level := Int (-1) |}.

(** The fields [update] never assigns. *)
Definition config (s : state) :=
  (_i2c_add s, _logger s, _delay s, _operation_mode s,
   _continuous_sampling s, _high_res s, _low_res s, _mtreg s).

(** The value [set_sensitivity] stores in [_mtreg]. *)
Definition clamp (sensitivity : Z) : Z :=
  if sensitivity <? 31 then 31
  else if 254 <? sensitivity then 254
  else sensitivity.

(** The value [_get_result] returns for the word [data]. *)
Definition lux (high_res : bool) (mtreg data : Z) : float :=
  (1 / (1.2 * (Z2F mtreg / 69.0) * Z2F (if high_res then 2 else 1))
   * Z2F (swap_bytes data))%float.

(** [n] calls of [update] in a row. *)
Fixpoint updates (bus : SMBus) (n : nat) : M state unit :=
  match n with
  | O => ret tt
  | S n' => update bus ;; updates bus n'
  end.

(** A bus whose word reads return [word], except the second one, which
    raises. *)
Definition flaky_bus (word : Z) : SMBus :=
  {| write_byte := fun _ _ _ => Some tt;
     write_byte_data := fun _ _ _ _ => Some tt;
     read_byte_data := fun _ _ _ => None;
     read_word_data := fun t _ _ =>
       if (List.length (filter (fun e => match e with
                                         | EReadWordData _ _ => true
                                         | _ => false
                                         end) t) =? 1)%nat
       then None else Some word;
     read_i2c_block_data := fun _ _ _ _ => None |}.

End BH1750.

(* ================================================================== *)
(** * BME280 temperature, humidity and pressure sensor (bme280.py) *)
(* ================================================================== *)

Module BME280.

Definition DEFAULT_I2C_ADDRESS : Z := 0x76.
Definition DEFAULT_OVERSAMPLING_TEMP : Z := 1.
Definition DEFAULT_OVERSAMPLING_PRES : Z := 1.
Definition DEFAULT_OVERSAMPLING_HUM : Z := 1.
Definition DEFAULT_OPERATION_MODE : Z := 3.
Definition DEFAULT_T_STANDBY : Z := 5.
Definition DEFAULT_FILTER_MODE : Z := 0.
Definition DEFAULT_DELTA_TEMP : float := 0%float.

Record state : Type := {
  _i2c_add : Z;
  _ok : bool;
  _logger : bool;
  mode : Z;
  ctrl_meas_reg : Z;
  config_reg : Z;
  ctrl_hum_reg : Z;
  _delta_temp : float;
  _with_pressure : bool;
  _with_humidity : bool;
  _calibration_t : option (list Z);
  _calibration_h : option (list Z);
  _calibration_p : option (list Z);
  _temp_fine : option float;
  _temperature : option num;
  _humidity : option num;
  _pressure : option num
}.

Definition set_ok (b : bool) (s : state) : state :=
  {| _i2c_add := _i2c_add s; _ok := b; _logger := _logger s;
     mode := mode s; ctrl_meas_reg := ctrl_meas_reg s;
     config_reg := config_reg s; ctrl_hum_reg := ctrl_hum_reg s;
     _delta_temp := _delta_temp s; _with_pressure := _with_pressure s;
     _with_humidity := _with_humidity s;
     _calibration_t := _calibration_t s; _calibration_h := _calibration_h s;
     _calibration_p := _calibration_p s; _temp_fine := _temp_fine s;
     _temperature := _temperature s; _humidity := _humidity s;
     _pressure := _pressure s |}.

Definition set_calibration (ct ch cp : list Z) (s : state) : state :=
  {| _i2c_add := _i2c_add s; _ok := _ok s; _logger := _logger s;
     mode := mode s; ctrl_meas_reg := ctrl_meas_reg s;
     config_reg := config_reg s; ctrl_hum_reg := ctrl_hum_reg s;
     _delta_temp := _delta_temp s; _with_pressure := _with_pressure s;
     _with_humidity := _with_humidity s;
     _calibration_t := Some ct; _calibration_h := Some ch;
     _calibration_p := Some cp; _temp_fine := _temp_fine s;
     _temperature := _temperature s; _humidity := _humidity s;
     _pressure := _pressure s |}.

Definition set_temp_fine (v : float) (s : state) : state :=
  {| _i2c_add := _i2c_add s; _ok := _ok s; _logger := _logger s;
     mode := mode s; ctrl_meas_reg := ctrl_meas_reg s;
     config_reg := config_reg s; ctrl_hum_reg := ctrl_hum_reg s;
     _delta_temp := _delta_temp s; _with_pressure := _with_pressure s;
     _with_humidity := _with_humidity s;
     _calibration_t := _calibration_t s; _calibration_h := _calibration_h s;
     _calibration_p := _calibration_p s; _temp_fine := Some v;
     _temperature := _temperature s; _humidity := _humidity s;
     _pressure := _pressure s |}.

Definition set_temperature (v : num) (s : state) : state :=
  {| _i2c_add := _i2c_add s; _ok := _ok s; _logger := _logger s;
     mode := mode s; ctrl_meas_reg := ctrl_meas_reg s;
     config_reg := config_reg s; ctrl_hum_reg := ctrl_hum_reg s;
     _delta_temp := _delta_temp s; _with_pressure := _with_pressure s;
     _with_humidity := _with_humidity s;
     _calibration_t := _calibration_t s; _calibration_h := _calibration_h s;
     _calibration_p := _calibration_p s; _temp_fine := _temp_fine s;
     _temperature := Some v; _humidity := _humidity s;
     _pressure := _pressure s |}.

Definition set_humidity (v : num) (s : state) : state :=
  {| _i2c_add := _i2c_add s; _ok := _ok s; _logger := _logger s;
     mode := mode s; ctrl_meas_reg := ctrl_meas_reg s;
     config_reg := config_reg s; ctrl_hum_reg := ctrl_hum_reg s;
     _delta_temp := _delta_temp s; _with_pressure := _with_pressure s;
     _with_humidity := _with_humidity s;
     _calibration_t := _calibration_t s; _calibration_h := _calibration_h s;
     _calibration_p := _calibration_p s; _temp_fine := _temp_fine s;
     _temperature := _temperature s; _humidity := Some v;
     _pressure := _pressure s |}.

Definition set_pressure (v : num) (s : state) : state :=
  {| _i2c_add := _i2c_add s; _ok := _ok s; _logger := _logger s;
     mode := mode s; ctrl_meas_reg := ctrl_meas_reg s;
     config_reg := config_reg s; ctrl_hum_reg := ctrl_hum_reg s;
     _delta_temp := _delta_temp s; _with_pressure := _with_pressure s;
     _with_humidity := _with_humidity s;
     _calibration_t := _calibration_t s; _calibration_h := _calibration_h s;
     _calibration_p := _calibration_p s; _temp_fine := _temp_fine s;
     _temperature := _temperature s; _humidity := _humidity s;
     _pressure := Some v |}.

(** ** Compensation formulas *)

Definition _compensate_temperature (adc_t : Z) : M state float :=
  s <- get ;;
  cal <- unwrap (_calibration_t s) ;;
  T0 <- getitem cal 0 ;;
  T1 <- getitem cal 1 ;;
  T2 <- getitem cal 2 ;;
  let var_1 := ((Z2F adc_t / 16384.0 - Z2F T0 / 1024.0) * Z2F T1)%float in
  let var_2 := ((Z2F adc_t / 131072.0 - Z2F T0 / 8192.0)
                * (Z2F adc_t / 131072.0 - Z2F T0 / 8192.0)
                * Z2F T2)%float in
  let temp_fine := (var_1 + var_2)%float in
  if negb (_delta_temp s =? 0)%float then
    let temp := (temp_fine / 5120.0 + _delta_temp s)%float in
    modify (set_temp_fine (temp * 5120.0)%float) ;;
    ret temp
  else
    modify (set_temp_fine temp_fine) ;;
    ret (temp_fine / 5120.0)%float.

Definition _compensate_pressure (adc_p : Z) : M state num :=
  s <- get ;;
  temp_fine <- unwrap (_temp_fine s) ;;
  let var_1 := (temp_fine / 2.0 - 64000.0)%float in
  let var_2 := (((var_1 / 4.0) * (var_1 / 4.0)) / 2048)%float in
  cal <- unwrap (_calibration_p s) ;;
  P5 <- getitem cal 5 ;;
  let var_2 := (var_2 * Z2F P5)%float in
  P4 <- getitem cal 4 ;;
  let var_2 := (var_2 + ((var_1 * Z2F P4) * 2.0))%float in
  P3 <- getitem cal 3 ;;
  let var_2 := ((var_2 / 4.0) + (Z2F P3 * 65536.0))%float in
  P2 <- getitem cal 2 ;;
  P1 <- getitem cal 1 ;;
  let var_1 := (((Z2F P2 * (((var_1 / 4.0) * (var_1 / 4.0)) / 8192)) / 8)
                + ((Z2F P1 * var_1) / 2.0))%float in
  let var_1 := (var_1 / 262144)%float in
  P0 <- getitem cal 0 ;;
  let var_1 := (((32768 + var_1) * Z2F P0) / 32768)%float in
  if (var_1 =? 0)%float then ret (Int 0)
  else
    let pressure := ((Z2F (1048576 - adc_p) - (var_2 / 4096)) * 3125)%float in
    let pressure :=
      if (pressure <? 2147483648)%float
      then ((pressure * 2.0) / var_1)%float
      else ((pressure / var_1) * 2)%float in
    P8 <- getitem cal 8 ;;
    let var_1 := ((Z2F P8 * (((pressure / 8.0) * (pressure / 8.0)) / 8192.0))
                  / 4096)%float in
    P7 <- getitem cal 7 ;;
    let var_2 := (((pressure / 4.0) * Z2F P7) / 8192.0)%float in
    P6 <- getitem cal 6 ;;
    let pressure := (pressure + ((var_1 + var_2 + Z2F P6) / 16.0))%float in
    ret (Float (pressure / 100)%float).

Definition _compensate_humidity (adc_h : Z) : M state num :=
  s <- get ;;
  temp_fine <- unwrap (_temp_fine s) ;;
  let var_h := (temp_fine - 76800.0)%float in
  if (var_h =? 0)%float then ret (Int 0)
  else
    cal <- unwrap (_calibration_h s) ;;
    H3 <- getitem cal 3 ;;
    H4 <- getitem cal 4 ;;
    H1 <- getitem cal 1 ;;
    H5 <- getitem cal 5 ;;
    H2 <- getitem cal 2 ;;
    let var_h :=
      ((Z2F adc_h - (Z2F H3 * 64.0 + Z2F H4 / 16384.0 * var_h))
       * (Z2F H1 / 65536.0
          * (1.0 + Z2F H5 / 67108864.0 * var_h
                   * (1.0 + Z2F H2 / 67108864.0 * var_h))))%float in
    H0 <- getitem cal 0 ;;
    let var_h := (var_h * (1.0 - Z2F H0 * var_h / 524288.0))%float in
    let var_h :=
      if (100.0 <? var_h)%float then 100.0%float
      else if (var_h <? 0.0)%float then 0.0%float
      else var_h in
    ret (Float var_h).

(** ** Calibration table *)

Local Open Scope opt_scope.

(** [(raw_data[hi] << 8) | raw_data[lo]] *)
Definition word (raw_data : list Z) (hi lo : nat) : option Z :=
  h <-? nth_error raw_data hi ;;
  l <-? nth_error raw_data lo ;;
  Some (Z.lor (Z.shiftl h 8) l).

Definition assemble_t (raw_data : list Z) : option (list Z) :=
  t1 <-? word raw_data 1 0 ;;
  t2 <-? word raw_data 3 2 ;;
  t3 <-? word raw_data 5 4 ;;
  Some [t1; t2; t3].

Definition assemble_p (raw_data : list Z) : option (list Z) :=
  p1 <-? word raw_data 7 6 ;;
  p2 <-? word raw_data 9 8 ;;
  p3 <-? word raw_data 11 10 ;;
  p4 <-? word raw_data 13 12 ;;
  p5 <-? word raw_data 15 14 ;;
  p6 <-? word raw_data 17 16 ;;
  p7 <-? word raw_data 19 18 ;;
  p8 <-? word raw_data 21 20 ;;
  p9 <-? word raw_data 23 22 ;;
  Some [p1; p2; p3; p4; p5; p6; p7; p8; p9].

Definition assemble_h (raw_data : list Z) : option (list Z) :=
  h1 <-? nth_error raw_data 24 ;;
  h2 <-? word raw_data 26 25 ;;
  h3 <-? nth_error raw_data 27 ;;
  r28 <-? nth_error raw_data 28 ;;
  r29 <-? nth_error raw_data 29 ;;
  r30 <-? nth_error raw_data 30 ;;
  h6 <-? nth_error raw_data 31 ;;
  Some [h1; h2; h3;
        Z.lor (Z.shiftl r28 4) (Z.land 0x0F r29);
        Z.lor (Z.shiftl r30 4) (Z.land (Z.shiftr r29 4) 0x0F);
        h6].

(** [(-v ^ 0xFFFF) + 1]: the unary minus binds tighter than [^]. *)
Definition twos_complement (v : Z) : Z := Z.lxor (- v) 0xFFFF + 1.

(** A table entry after the body of a sign loop has run on it. *)
Definition signed16 (v : Z) : Z :=
  if Z.land v 0x8000 =? 0 then v else twos_complement v.

(** The body of the three sign loops:
    [if cal[i] & 0x8000: cal[i] = (-cal[i] ^ 0xFFFF) + 1]. *)
Definition sign_extend_at (cal : list Z) (i : nat) : option (list Z) :=
  v <-? nth_error cal i ;;
  if Z.land v 0x8000 =? 0 then Some cal
  else setitem cal i (twos_complement v).

(** [for i in range(first, first + count): ...] over one table. *)
Definition sign_extend (first count : nat) (cal : list Z) : option (list Z) :=
  fold_left
    (fun acc i => cal <-? acc ;; sign_extend_at cal i)
    (seq first count) (Some cal).

Local Close Scope opt_scope.

Section Driver.

Variable bus : SMBus.

(** [for i in regs: raw_data.append(bus.read_byte_data(address, i))] *)
Fixpoint read_registers (address : Z) (regs : list Z) : M state (list Z) :=
  match regs with
  | [] => ret []
  | i :: regs' =>
      v <- call (EReadByteData address i)
                (fun t => read_byte_data bus t address i) ;;
      vs <- read_registers address regs' ;;
      ret (v :: vs)
  end.

Definition _populate_calibration_data : M state unit :=
  s <- get ;;
  let a := _i2c_add s in
  r <- try_except
         (d1 <- read_registers a (range 0x88 24) ;;
          d2 <- read_registers a [0xA1] ;;
          d3 <- read_registers a (range 0xE1 7) ;;
          ret (Some (d1 ++ d2 ++ d3)))
         (report (_logger s) "error" "Can't populate calibration data: %s" ;;
          ret None) ;;
  match r with
  | None => ret tt
  | Some raw_data =>
      calibration_t <- indexed (assemble_t raw_data) ;;
      calibration_p <- (if _with_pressure s
                        then indexed (assemble_p raw_data) else ret []) ;;
      calibration_h <- (if _with_humidity s
                        then indexed (assemble_h raw_data) else ret []) ;;
      calibration_t <- indexed (sign_extend 1 1 calibration_t) ;;
      calibration_p <- (if _with_pressure s
                        then indexed (sign_extend 1 7 calibration_p)
                        else ret calibration_p) ;;
      calibration_h <- (if _with_humidity s
                        then indexed (sign_extend 0 6 calibration_h)
                        else ret calibration_h) ;;
      modify (set_calibration calibration_t calibration_h calibration_p)
  end.

(** [while bus.read_byte_data(address, 0xF3) & 0x08: sleep(0.005)] *)
Fixpoint poll_status (fuel : nat) : M state unit :=
  match fuel with
  | O => out_of_fuel
  | S fuel' =>
      s <- get ;;
      status <- call (EReadByteData (_i2c_add s) 0xF3)
                     (fun t => read_byte_data bus t (_i2c_add s) 0xF3) ;;
      if Z.land status 0x08 =? 0 then ret tt
      else sleep 0.005 ;; poll_status fuel'
  end.

Definition _take_forced_measurement (fuel : nat) : M state unit :=
  s <- get ;;
  call (EWriteByteData (_i2c_add s) 0xF4 (ctrl_meas_reg s))
       (fun t => write_byte_data bus t (_i2c_add s) 0xF4 (ctrl_meas_reg s)) ;;
  poll_status fuel.

(** The [try] block of [update]; [None] is the [return] of its [except]
    branch, [Some data] the eight bytes read from 0xF7. *)
Definition acquire (fuel : nat) (first_reading : bool)
  : M state (option (list Z)) :=
  s <- get ;;
  let a := _i2c_add s in
  try_except
    ((if first_reading || negb (_ok s) then
        call (EWriteByteData a 0xF2 (ctrl_hum_reg s))
             (fun t => write_byte_data bus t a 0xF2 (ctrl_hum_reg s)) ;;
        call (EWriteByteData a 0xF5 (config_reg s))
             (fun t => write_byte_data bus t a 0xF5 (config_reg s)) ;;
        call (EWriteByteData a 0xF4 (ctrl_meas_reg s))
             (fun t => write_byte_data bus t a 0xF4 (ctrl_meas_reg s)) ;;
        _populate_calibration_data
      else ret tt) ;;
     (if mode s =? 2 then _take_forced_measurement fuel else ret tt) ;;
     data <- read_registers a (range 0xF7 8) ;;
     ret (Some data))
    (report (_logger s) "warning" "Bad update: %s" ;;
     modify (set_ok false) ;;
     ret None).

End Driver.

(** The three range checks of [update]. *)
Definition temperature_accepted (temperature : float) : bool :=
  geb (Float temperature) (Int (-20)) && ltb (Float temperature) (Int 80).

Definition humidity_accepted (humidity : num) : bool :=
  geb humidity (Int 0) && leb humidity (Int 100).

Definition pressure_accepted (pressure : num) : bool :=
  gtb pressure (Int 100).

(** What each check does to the object. *)
Definition after_temperature (temperature : float) (s : state) : state :=
  if temperature_accepted temperature
  then set_ok true (set_temperature (Float temperature) s)
  else s.

Definition after_humidity (humidity : num) (s : state) : state :=
  if humidity_accepted humidity
  then set_humidity humidity s
  else set_ok false s.

Definition after_pressure (pressure : num) (s : state) : state :=
  if pressure_accepted pressure
  then set_pressure pressure s
  else set_ok false s.

(** [pres_raw], [temp_raw] and [hum_raw] of the eight bytes read. *)
Definition raw_values (data : list Z) : option (Z * Z * Z) :=
  (d0 <-? nth_error data 0 ;;
   d1 <-? nth_error data 1 ;;
   d2 <-? nth_error data 2 ;;
   d3 <-? nth_error data 3 ;;
   d4 <-? nth_error data 4 ;;
   d5 <-? nth_error data 5 ;;
   d6 <-? nth_error data 6 ;;
   d7 <-? nth_error data 7 ;;
   Some (Z.lor (Z.lor (Z.shiftl d0 12) (Z.shiftl d1 4)) (Z.shiftr d2 4),
         Z.lor (Z.lor (Z.shiftl d3 12) (Z.shiftl d4 4)) (Z.shiftr d5 4),
         Z.lor (Z.shiftl d6 8) d7))%opt.

(** The part of [update] after the [try] block. *)
Definition compensate (data : list Z) : M state unit :=
  raw <- indexed (raw_values data) ;;
  let '(pres_raw, temp_raw, hum_raw) := raw in
  modify (set_ok false) ;;
  temperature <- _compensate_temperature temp_raw ;;
  modify (after_temperature temperature) ;;
  s <- get ;;
  (if _with_humidity s then
     humidity <- _compensate_humidity hum_raw ;;
     modify (after_humidity humidity)
   else ret tt) ;;
  (if _with_pressure s then
     pressure <- _compensate_pressure pres_raw ;;
     modify (after_pressure pressure)
   else ret tt).

Definition update (bus : SMBus) (fuel : nat) (first_reading : bool)
  : M state unit :=
  r <- acquire bus fuel first_reading ;;
  match r with
  | None => ret tt
  | Some data => compensate data
  end.

(** The fields [__init__] assigns before its call of [update]. *)
Definition fresh (i2c_address : Z)
    (osrs_t osrs_p osrs_h mode t_sb filter_mode : Z) (delta_temp : float)
    (spi3w_en : Z) (logger : bool) : state :=
  {| _i2c_add := i2c_address; _ok := false; _logger := logger;
     mode := mode;
     ctrl_meas_reg := Z.lor (Z.lor (Z.shiftl osrs_t 5) (Z.shiftl osrs_p 2)) mode;
     config_reg := Z.lor (Z.lor (Z.shiftl t_sb 5) (Z.shiftl filter_mode 2)) spi3w_en;
     ctrl_hum_reg := osrs_h;
     _delta_temp := delta_temp;
     _with_pressure := 0 <? osrs_p;
     _with_humidity := 0 <? osrs_h;
     _calibration_t := None; _calibration_h := None;
     _calibration_p := None; _temp_fine := None;
     _temperature := None; _humidity := None; _pressure := None |}.

(** [BME280(bus, i2c_address, osrs_t, osrs_p, osrs_h, mode, t_sb,
    filter_mode, delta_temp, spi3w_en, logger)] *)
Definition init (bus : SMBus) (fuel : nat) (i2c_address : Z)
    (osrs_t osrs_p osrs_h mode t_sb filter_mode : Z) (delta_temp : float)
    (spi3w_en : Z) (logger : bool) : M state unit :=
  modify (fun _ => fresh i2c_address osrs_t osrs_p osrs_h mode t_sb
                         filter_mode delta_temp spi3w_en logger) ;;
  update bus fuel true.

(** The properties [sample_ok], [temperature], [humidity], [pressure]. *)
Definition sample_ok (s : state) : bool := _ok s.
Definition temperature (s : state) : option num := _temperature s.
Definition humidity (s : state) : option num := _humidity s.
Definition pressure (s : state) : option num := _pressure s.

(** The fields of an object before [__init__] has run. *)
Definition blank : state :=
  {| _i2c_add := 0; _ok := false; _logger := false; mode := 0;
     ctrl_meas_reg := 0; config_reg := 0; ctrl_hum_reg := 0;
     _delta_temp := 0%float; _with_pressure := false;
     _with_humidity := false; _calibration_t := None;
     _calibration_h := None; _calibration_p := None; _temp_fine := None;
     _temperature := None; _humidity := None; _pressure := None |}.

(** The values the three accessors return, and the channel switches. *)
Definition stored (s : state) :=
  (_temperature s, _humidity s, _pressure s).

Definition channels (s : state) :=
  (_with_humidity s, _with_pressure s, _delta_temp s).

(** A byte, as every SMBus read returns; and a bus all of whose byte reads
    return one. *)
Definition byte_value (v : Z) : Prop := 0 <= v <= 255.

Definition byte_bus (bus : SMBus) : Prop :=
  forall t a r v, read_byte_data bus t a r = Some v -> byte_value v.

(** A table entry as [_populate_calibration_data] can leave it: a 16-bit
    word, read as signed or not. *)
Definition fits16 (v : Z) : Prop := -32768 <= v <= 65535.

(** A table is set, has [n] entries and all of them fit. *)
Definition table_ok (n : nat) (cal : option (list Z)) : Prop :=
  exists c, cal = Some c /\ List.length c = n /\ Forall fits16 c.

(** The tables are set and have the entries the compensations index. *)
Definition calibrated (s : state) : Prop :=
  table_ok 3 (_calibration_t s)
  /\ (_with_pressure s = true -> table_ok 9 (_calibration_p s))
  /\ (_with_humidity s = true -> table_ok 6 (_calibration_h s)).

(** The events of [k] turns of the polling loop of a forced measurement
    that found the device busy. *)
Fixpoint polls (address : Z) (k : nat) : list event :=
  match k with
  | O => []
  | S k' => EReadByteData address 0xF3 :: ESleep 0.005 :: polls address k'
  end.

(** What the bus part of [update] and the temperature compensation leave
    alone. *)
Definition unchanged (s s' : state) : Prop :=
  stored s' = stored s /\ channels s' = channels s.

End BME280.

(* ================================================================== *)
(** * Buses and runs used as examples *)
(* ================================================================== *)

Module Examples.

(** Every write is acknowledged and every read raises. *)
Definition deaf_bus : SMBus :=
  table_bus (fun _ => None) None (fun _ => None).

(** Every call raises. *)
Definition silent_bus : SMBus :=
  {| write_byte := fun _ _ _ => None;
     write_byte_data := fun _ _ _ _ => None;
     read_byte_data := fun _ _ _ => None;
     read_word_data := fun _ _ _ => None;
     read_i2c_block_data := fun _ _ _ _ => None |}.

(** Every register reads 0. *)
Definition zero_bus : SMBus :=
  table_bus (fun _ => Some 0) (Some 0) (fun _ => Some [0; 0; 0]).

(** Every register reads 0, except that reading the first calibration
    register, 0x88, raises [OSError]. *)
Definition no_calibration_bus : SMBus :=
  table_bus (fun reg => if reg =? 0x88 then None else Some 0)
            (Some 0) (fun _ => None).

(** The first bus call of all raises, and so does every read of register
    0x88; every other call succeeds and reads 0. *)
Definition late_bus : SMBus :=
  {| write_byte := fun _ _ _ => Some tt;
     write_byte_data := fun t _ _ _ =>
       match t with [] => None | _ => Some tt end;
     read_byte_data := fun _ _ reg => if reg =? 0x88 then None else Some 0;
     read_word_data := fun _ _ _ => None;
     read_i2c_block_data := fun _ _ _ _ => None |}.

(** Calibration registers in which dig_T2 (0x8A, 0x8B), dig_T3 (0x8C, 0x8D)
    and dig_P9 (0x9E, 0x9F) all hold 0x8001; every other register reads 0. *)
Definition negative_coefficients_bus : SMBus :=
  table_bus
    (fun reg =>
       if (reg =? 0x8A) || (reg =? 0x8C) || (reg =? 0x9E) then Some 0x01
       else if (reg =? 0x8B) || (reg =? 0x8D) || (reg =? 0x9F) then Some 0x80
       else Some 0)
    (Some 0) (fun _ => None).

(** A sensor that warms up.  dig_T2 is 0x4000 and every other calibration
    register reads 0, so that the compensated temperature is
    temp_raw / 5120; the temperature registers 0xFA and 0xFB hold
    temp_raw = 110080 (21.5 degrees) when first read and 512000
    (100 degrees) afterwards. *)
Definition read_before (reg : Z) (t : list event) : bool :=
  existsb (fun e => match e with
                    | EReadByteData _ r => r =? reg
                    | _ => false
                    end) t.

Definition warming_bus : SMBus :=
  {| write_byte := fun _ _ _ => Some tt;
     write_byte_data := fun _ _ _ _ => Some tt;
     read_byte_data := fun t _ reg =>
       if reg =? 0x8B then Some 0x40
       else if reg =? 0xFA then Some (if read_before reg t then 0x7D else 0x1A)
       else if reg =? 0xFB then Some (if read_before reg t then 0x00 else 0xE0)
       else Some 0;
     read_word_data := fun _ _ _ => None;
     read_i2c_block_data := fun _ _ _ _ => None |}.

(** A BME280 with only its temperature channel on, built on
    [warming_bus]. *)
Definition bme280_warming :=
  BME280.init warming_bus 0 BME280.DEFAULT_I2C_ADDRESS 1 0 0
    BME280.DEFAULT_OPERATION_MODE BME280.DEFAULT_T_STANDBY
    BME280.DEFAULT_FILTER_MODE BME280.DEFAULT_DELTA_TEMP 0 false
    BME280.blank [].

(** A BME280 built on [late_bus] with the default parameters, and its next
    call of [update]. *)
Definition bme280_late :=
  BME280.init late_bus 0 BME280.DEFAULT_I2C_ADDRESS
    BME280.DEFAULT_OVERSAMPLING_TEMP BME280.DEFAULT_OVERSAMPLING_PRES
    BME280.DEFAULT_OVERSAMPLING_HUM BME280.DEFAULT_OPERATION_MODE
    BME280.DEFAULT_T_STANDBY BME280.DEFAULT_FILTER_MODE
    BME280.DEFAULT_DELTA_TEMP 0 false BME280.blank [].

Definition bme280_late_update :=
  BME280.update late_bus 0 false (snd (fst bme280_late)) (snd bme280_late).

(** A BME280 built on [bus] with the default parameters. *)
Definition bme280_default (bus : SMBus) :=
  BME280.init bus 0 BME280.DEFAULT_I2C_ADDRESS
    BME280.DEFAULT_OVERSAMPLING_TEMP BME280.DEFAULT_OVERSAMPLING_PRES
    BME280.DEFAULT_OVERSAMPLING_HUM BME280.DEFAULT_OPERATION_MODE
    BME280.DEFAULT_T_STANDBY BME280.DEFAULT_FILTER_MODE
    BME280.DEFAULT_DELTA_TEMP 0 false BME280.blank [].

(** A BME280 with only the temperature channel on, whose calibration reads
    all zero: its compensated temperature is [delta_temp] itself. *)
Definition bme280_reading (delta_temp : float) :=
  BME280.init zero_bus 0 BME280.DEFAULT_I2C_ADDRESS 1 0 0
    BME280.DEFAULT_OPERATION_MODE BME280.DEFAULT_T_STANDBY
    BME280.DEFAULT_FILTER_MODE delta_temp 0 false BME280.blank [].

(** A BH1750 built with the default delay and sensitivity on a bus whose
    word reads return [word]. *)
Definition bh1750_reading (mode : BH1750.operation_mode) (word : Z) :=
  BH1750.init (table_bus (fun _ => None) (Some word) (fun _ => None))
    BH1750.DEFAULT_I2C_ADDRESS mode BH1750.DEFAULT_DELAY_MS
    BH1750.DEFAULT_SENSITIVITY false BH1750.blank [].

(** A BH1750 in continuous high resolution mode 1 on a bus whose second
    word read raises: the constructor, then two calls of [update]. *)
Definition bh1750_flaky_start :=
  BH1750.init (BH1750.flaky_bus 0x7800) BH1750.DEFAULT_I2C_ADDRESS
    BH1750.CONTINUOUS_HIGH_RES_MODE_1 BH1750.DEFAULT_DELAY_MS
    BH1750.DEFAULT_SENSITIVITY false BH1750.blank [].



(** An HTU21D on a bus that returns [buf_t] for the temperature block and
    [buf_h] for the humidity block. *)
Definition htu21d_bus (buf_t buf_h : list Z) : SMBus :=
  table_bus (fun _ => None) None
            (fun reg => if reg =? HTU21D.CMD_READ_TEMP_HOLD
                        then Some buf_t else Some buf_h).

(** The fields of a run's result. *)
Definition outcome_of {S A} (r : outcome A * S * list event) : outcome A :=
  fst (fst r).
Definition state_of {S A} (r : outcome A * S * list event) : S :=
  snd (fst r).
Definition trace_of {S A} (r : outcome A * S * list event) : list event :=
  snd r.

End Examples.

(* ================================================================== *)
(** * Running monadic code *)
(* ================================================================== *)

Lemma bind_run {S A B} (m : M S A) (k : A -> M S B) s t a s1 t1 :
  m s t = (Ret a, s1, t1) -> bind m k s t = k a s1 t1.
Proof. intros H. unfold bind. rewrite H. reflexivity. Qed.

Lemma bind_inv {S A B} (m : M S A) (k : A -> M S B) s t b s' t' :
  bind m k s t = (Ret b, s', t') ->
  exists a s1 t1, m s t = (Ret a, s1, t1) /\ k a s1 t1 = (Ret b, s', t').
Proof.
  unfold bind. destruct (m s t) as [[[a|e|] s1] t1]; intros H;
    try discriminate.
  exists a, s1, t1. split; [reflexivity|exact H].
Qed.

Lemma range_forallb (P : Z -> bool) (n : nat) (a : Z) :
  forallb P (range a n) = true ->
  forall k, a <= k < a + Z.of_nat n -> P k = true.
Proof.
  revert a. induction n as [|n IH]; intros a Hall k Hk.
  - simpl in Hk. lia.
  - cbn [range forallb] in Hall. apply andb_true_iff in Hall as [Ha Hrest].
    destruct (Z.eq_dec k a) as [->|Hne]; [assumption|].
    apply (IH (a + 1)); [assumption|lia].
Qed.

Lemma quiet_app t1 t2 : quiet (t1 ++ t2) = quiet t1 ++ quiet t2.
Proof. apply filter_app. Qed.

Lemma quiet_cons e t :
  quiet (e :: t) = if is_report e then quiet t else e :: quiet t.
Proof. unfold quiet. cbn. destruct (is_report e); reflexivity. Qed.

Lemma quiet_complaint logger failed level msg :
  quiet (complaint logger failed level msg) = [].
Proof. destruct failed, logger; reflexivity. Qed.

Ltac quiet_norm :=
  repeat first [ rewrite quiet_app | rewrite quiet_complaint
               | rewrite quiet_cons; cbn [is_report] ];
  cbn [app quiet filter].

(* ================================================================== *)
(** * HTU21D: the CRC check *)
(* ================================================================== *)

Section HTU21D_CRC.

Import HTU21D.

Lemma land_bit_eqb (r k : Z) :
  0 <= k -> Z.eqb (Z.land r (Z.shiftl 1 k)) 0 = negb (Z.testbit r k).
Proof.
  intros Hk. rewrite Z.shiftl_1_l.
  destruct (Z.testbit r k) eqn:E; simpl.
  - apply Z.eqb_neq. intros H0.
    assert (Hb : Z.testbit (Z.land r (2 ^ k)) k = true).
    { rewrite Z.land_spec, E, Z.pow2_bits_true by assumption. reflexivity. }
    rewrite H0, Z.bits_0 in Hb. discriminate.
  - apply Z.eqb_eq. apply Z.bits_inj'. intros n Hn.
    rewrite Z.land_spec, Z.bits_0, Z.pow2_bits_eqb by assumption.
    destruct (Z.eqb_spec k n) as [->|_].
    + rewrite E. reflexivity.
    + apply andb_false_r.
Qed.

Lemma crc8_step_fst (r d i : Z) :
  0 <= 23 - i ->
  fst (crc8_step (r, d) i) = if Z.testbit r (23 - i) then Z.lxor r d else r.
Proof.
  intros Hi. unfold crc8_step. rewrite land_bit_eqb by assumption.
  destruct (Z.testbit r (23 - i)); reflexivity.
Qed.

Lemma crc8_step_eta (r d i : Z) :
  crc8_step (r, d) i = (fst (crc8_step (r, d) i), Z.shiftr d 1).
Proof. reflexivity. Qed.

(** The loop of the source is the division of the specification: at turn
    [i] the divisor is the polynomial shifted to bit [23 - i]. *)
Lemma crc8_fold_gf2 (n : nat) :
  forall v d,
    (n <> O -> d = Z.shiftl POLY (Z.of_nat n - 1)) ->
    fst (fold_left crc8_step (range (16 - Z.of_nat n) n) (v, d))
    = gf2_rem n POLY v.
Proof.
  induction n as [|n IH]; intros v d Hd.
  - reflexivity.
  - cbn [range fold_left gf2_rem].
    rewrite crc8_step_eta, crc8_step_fst by lia.
    replace (23 - (16 - Z.of_nat (S n))) with (8 + Z.of_nat n) by lia.
    rewrite (Hd (Nat.neq_succ_0 n)).
    replace (Z.of_nat (S n) - 1) with (Z.of_nat n) by lia.
    replace (16 - Z.of_nat (S n) + 1) with (16 - Z.of_nat n) by lia.
    apply IH. intros Hn.
    rewrite Z.shiftr_shiftl_l by lia. reflexivity.
Qed.

Lemma crc8_remainder_gf2 (v0 v1 v2 : Z) :
  crc8_remainder v0 v1 v2 = gf2_rem 16 POLY (raw24 v0 v1 v2).
Proof.
  unfold crc8_remainder. apply (@crc8_fold_gf2 16).
  intros _. reflexivity.
Qed.

(** Subtraction over GF(2) is [xor], so the remainder is additive. *)
Lemma gf2_rem_lxor (k : nat) (p : Z) :
  forall a b, gf2_rem k p (Z.lxor a b) = Z.lxor (gf2_rem k p a) (gf2_rem k p b).
Proof.
  induction k as [|k IH]; intros a b; cbn [gf2_rem]; [reflexivity|].
  rewrite <- IH. f_equal. rewrite Z.lxor_spec.
  set (s := Z.shiftl p (Z.of_nat k)).
  destruct (Z.testbit a _), (Z.testbit b _); simpl.
  - rewrite (Z.lxor_comm b s), Z.lxor_assoc, <- (Z.lxor_assoc s s b).
    rewrite Z.lxor_nilpotent, Z.lxor_0_l. reflexivity.
  - rewrite !Z.lxor_assoc. f_equal. apply Z.lxor_comm.
  - rewrite Z.lxor_assoc. reflexivity.
  - reflexivity.
Qed.

Lemma gf2_rem_0 (k : nat) (p : Z) : gf2_rem k p 0 = 0.
Proof.
  induction k as [|k IH]; cbn [gf2_rem]; [reflexivity|].
  rewrite Z.bits_0. exact IH.
Qed.

Lemma clmul_low_bits (k : nat) (p q1 q2 : Z) :
  (forall j, 0 <= j < Z.of_nat k -> Z.testbit q1 j = Z.testbit q2 j) ->
  clmul k q1 p = clmul k q2 p.
Proof.
  induction k as [|k IH]; intros H; cbn [clmul]; [reflexivity|].
  rewrite (H (Z.of_nat k)) by lia. f_equal. apply IH. intros j Hj. apply H. lia.
Qed.

(** The division builds its quotient one coefficient at a time. *)
Lemma gf2_rem_quotient (k : nat) (p : Z) :
  forall v, exists q, gf2_rem k p v = Z.lxor v (clmul k q p).
Proof.
  induction k as [|k IH]; intros v; cbn [gf2_rem clmul].
  - exists 0. rewrite Z.lxor_0_r. reflexivity.
  - set (s := Z.shiftl p (Z.of_nat k)).
    destruct (Z.testbit v (8 + Z.of_nat k)).
    + destruct (IH (Z.lxor v s)) as [q Hq].
      exists (Z.setbit q (Z.of_nat k)).
      rewrite Z.setbit_eq by lia.
      rewrite (@clmul_low_bits k p (Z.setbit q (Z.of_nat k)) q).
      * rewrite Hq, Z.lxor_assoc. reflexivity.
      * intros j Hj. apply Z.setbit_neq; lia.
    + destruct (IH v) as [q Hq].
      exists (Z.clearbit q (Z.of_nat k)).
      rewrite Z.clearbit_eq.
      rewrite (@clmul_low_bits k p (Z.clearbit q (Z.of_nat k)) q).
      * rewrite Z.lxor_0_l. exact Hq.
      * intros j Hj. apply Z.clearbit_neq. lia.
Qed.

Lemma gf2_rem_shifted_poly (j : Z) :
  0 <= j < 16 -> gf2_rem 16 POLY (Z.shiftl POLY j) = 0.
Proof.
  intros Hj. apply Z.eqb_eq.
  apply (@range_forallb (fun j => gf2_rem 16 POLY (Z.shiftl POLY j) =? 0) 16 0);
    [vm_compute; reflexivity | simpl; lia].
Qed.

Lemma gf2_rem_multiple (k : nat) (q : Z) :
  (k <= 16)%nat -> gf2_rem 16 POLY (clmul k q POLY) = 0.
Proof.
  induction k as [|k IH]; intros Hk; cbn [clmul].
  - apply gf2_rem_0.
  - rewrite gf2_rem_lxor, IH by lia. rewrite Z.lxor_0_r.
    destruct (Z.testbit q (Z.of_nat k)).
    + apply gf2_rem_shifted_poly. lia.
    + apply gf2_rem_0.
Qed.

(** Remainder zero means divisible: the value is a multiple of the
    polynomial over GF(2). *)
Lemma gf2_rem_zero_iff_multiple (v : Z) :
  gf2_rem 16 POLY v = 0 <-> exists q, v = clmul 16 q POLY.
Proof.
  split.
  - intros H0. destruct (gf2_rem_quotient 16 POLY v) as [q Hq].
    exists q. rewrite H0 in Hq. symmetry in Hq.
    apply Z.lxor_eq in Hq. exact Hq.
  - intros [q ->]. apply gf2_rem_multiple. lia.
Qed.

(** ** Bytes side by side *)

Lemma byte_high_bits (v n : Z) : is_byte v -> 8 <= n -> Z.testbit v n = false.
Proof.
  intros [H0 H1] Hn.
  destruct (Z.eq_dec v 0) as [->|Hv]; [apply Z.bits_0|].
  apply Z.bits_above_log2; [lia|].
  assert (Z.log2 v < 8) by (apply Z.log2_lt_pow2; lia). lia.
Qed.

Lemma is_byteb_spec (v : Z) : is_byteb v = true -> is_byte v.
Proof. unfold is_byteb, is_byte. lia. Qed.

Lemma byte_pair_lor (hi lo : Z) :
  is_byte lo -> Z.shiftl hi 8 + lo = Z.lor (Z.shiftl hi 8) lo.
Proof.
  intros Hlo.
  rewrite <- Z.lxor_lor, Z.add_nocarry_lxor; try reflexivity;
    apply Z.bits_inj'; intros m Hm;
    rewrite Z.land_spec, Z.bits_0;
    destruct (Z.ltb_spec m 8);
    try (rewrite Z.shiftl_spec_low by lia; reflexivity);
    rewrite (byte_high_bits Hlo) by lia; apply andb_false_r.
Qed.

Lemma raw24_bits (v0 v1 v2 n : Z) :
  is_byte v0 -> is_byte v1 -> is_byte v2 -> 0 <= n ->
  Z.testbit (raw24 v0 v1 v2) n
  = if n <? 8 then Z.testbit v2 n
    else if n <? 16 then Z.testbit v1 (n - 8)
    else Z.testbit v0 (n - 16).
Proof.
  intros H0 H1 H2 Hn. unfold raw24.
  rewrite (byte_pair_lor v0 H1), Z.lor_spec.
  destruct (Z.ltb_spec n 8).
  - rewrite Z.shiftl_spec_low by lia. reflexivity.
  - rewrite (byte_high_bits H2) by lia. rewrite orb_false_r.
    rewrite Z.shiftl_spec, Z.lor_spec, Z.shiftl_spec by lia.
    replace (n - 8 - 8) with (n - 16) by lia.
    destruct (Z.ltb_spec n 16).
    + rewrite (Z.testbit_neg_r v0) by lia. reflexivity.
    + rewrite (byte_high_bits H1) by lia. apply orb_false_r.
Qed.

Lemma is_byte_lxor (a b : Z) : is_byte a -> is_byte b -> is_byte (Z.lxor a b).
Proof.
  intros Ha Hb.
  assert (H0 : 0 <= Z.lxor a b) by (apply Z.lxor_nonneg; unfold is_byte in *; lia).
  split; [assumption|].
  destruct (Z.eq_dec (Z.lxor a b) 0) as [->|Hn]; [lia|].
  apply Z.log2_lt_cancel. change (Z.log2 256) with 8.
  destruct (Z.lt_ge_cases (Z.log2 (Z.lxor a b)) 8) as [|Hge]; [assumption|].
  exfalso.
  assert (Hb' : Z.testbit (Z.lxor a b) (Z.log2 (Z.lxor a b)) = true)
    by (apply Z.bit_log2; lia).
  rewrite Z.lxor_spec, (byte_high_bits Ha), (byte_high_bits Hb) in Hb' by lia.
  discriminate.
Qed.

Lemma raw24_lxor (a0 a1 a2 b0 b1 b2 : Z) :
  is_byte a0 -> is_byte a1 -> is_byte a2 ->
  is_byte b0 -> is_byte b1 -> is_byte b2 ->
  raw24 (Z.lxor a0 b0) (Z.lxor a1 b1) (Z.lxor a2 b2)
  = Z.lxor (raw24 a0 a1 a2) (raw24 b0 b1 b2).
Proof.
  intros. apply Z.bits_inj'. intros n Hn.
  rewrite Z.lxor_spec, !raw24_bits by auto using is_byte_lxor.
  destruct (n <? 8); [|destruct (n <? 16)]; apply Z.lxor_spec.
Qed.

Lemma raw24_block_value (v0 v1 v2 : Z) :
  is_byte v0 -> is_byte v1 -> is_byte v2 ->
  raw24 v0 v1 v2 = block_value v0 v1 v2.
Proof.
  intros H0 H1 H2. unfold raw24, block_value.
  assert (Hl : Z.land (Z.shiftl (Z.shiftl v0 8 + v1) 8) v2 = 0).
  { apply Z.bits_inj'; intros m Hm. rewrite Z.land_spec, Z.bits_0.
    destruct (Z.ltb_spec m 8).
    - rewrite Z.shiftl_spec_low by lia. reflexivity.
    - rewrite (byte_high_bits H2) by lia. apply andb_false_r. }
  rewrite <- Z.lxor_lor, <- Z.add_nocarry_lxor by assumption.
  rewrite !Z.shiftl_mul_pow2 by lia. change (2 ^ 8) with 256. lia.
Qed.

Lemma crc8_remainder_lxor (a0 a1 a2 b0 b1 b2 : Z) :
  is_byte a0 -> is_byte a1 -> is_byte a2 ->
  is_byte b0 -> is_byte b1 -> is_byte b2 ->
  crc8_remainder (Z.lxor a0 b0) (Z.lxor a1 b1) (Z.lxor a2 b2)
  = Z.lxor (crc8_remainder a0 a1 a2) (crc8_remainder b0 b1 b2).
Proof.
  intros. rewrite !crc8_remainder_gf2, raw24_lxor by assumption.
  apply gf2_rem_lxor.
Qed.

(** ** One flipped bit *)

Lemma flip_bit_mask (k v0 v1 v2 : Z) :
  exists m0 m1 m2,
    flip_bit k [0; 0; 0] = [m0; m1; m2]
    /\ flip_bit k [v0; v1; v2] = [Z.lxor v0 m0; Z.lxor v1 m1; Z.lxor v2 m2].
Proof.
  unfold flip_bit.
  destruct (k <? 8); [|destruct (k <? 16)];
    do 3 eexists; (split; [reflexivity|]);
    rewrite ?Z.lxor_0_l, ?Z.lxor_0_r; reflexivity.
Qed.

Lemma crc8_single_bit (v0 v1 v2 k : Z) :
  is_byte v0 -> is_byte v1 -> is_byte v2 -> 0 <= k < 24 ->
  crc8_remainder v0 v1 v2 = 0 ->
  exists w0 w1 w2,
    flip_bit k [v0; v1; v2] = [w0; w1; w2] /\ crc8_remainder w0 w1 w2 <> 0.
Proof.
  intros H0 H1 H2 Hk Hpass.
  destruct (flip_bit_mask k v0 v1 v2) as (m0 & m1 & m2 & Hm & Hf).
  assert (Hu : unit_error_detected k = true).
  { apply (@range_forallb unit_error_detected 24 0);
      [vm_compute; reflexivity | simpl; lia]. }
  unfold unit_error_detected in Hu. rewrite Hm in Hu.
  apply andb_true_iff in Hu as [Hu Hne].
  apply andb_true_iff in Hu as [Hu Hb2].
  apply andb_true_iff in Hu as [Hb0 Hb1].
  apply is_byteb_spec in Hb0, Hb1, Hb2.
  exists (Z.lxor v0 m0), (Z.lxor v1 m1), (Z.lxor v2 m2).
  split; [assumption|].
  rewrite crc8_remainder_lxor, Hpass, Z.lxor_0_l by assumption.
  apply negb_true_iff, Z.eqb_neq in Hne. exact Hne.
Qed.

Lemma crc8check_run (v0 v1 v2 : Z) (s : state) (t : list event) :
  _crc8check [v0; v1; v2] s t = (Ret (crc8_remainder v0 v1 v2 =? 0), s, t).
Proof. reflexivity. Qed.

End HTU21D_CRC.

(** C7.  On a block of three bytes, [_crc8check] returns whether the
    MSB-first division of the 24-bit value (two data bytes, then the CRC
    byte) by the polynomial 0x0131 leaves remainder zero, which is to say
    whether the value is a multiple of the polynomial over GF(2); and once
    a block passes, the block with any single one of its 24 bits flipped
    fails. *)
Theorem htu21d_crc8check_division_and_single_bit_errors :
  forall (v0 v1 v2 : Z) (s : HTU21D.state) (t : list event),
    HTU21D.is_byte v0 -> HTU21D.is_byte v1 -> HTU21D.is_byte v2 ->
    let value := HTU21D.block_value v0 v1 v2 in
    HTU21D._crc8check [v0; v1; v2] s t
    = (Ret (HTU21D.gf2_rem 16 HTU21D.POLY value =? 0), s, t)
    /\ (HTU21D.gf2_rem 16 HTU21D.POLY value = 0
        <-> exists q, value = HTU21D.clmul 16 q HTU21D.POLY)
    /\ (forall k, 0 <= k < 24 ->
          HTU21D._crc8check [v0; v1; v2] s t = (Ret true, s, t) ->
          HTU21D._crc8check (HTU21D.flip_bit k [v0; v1; v2]) s t
          = (Ret false, s, t)).
Proof.
  intros v0 v1 v2 s t H0 H1 H2 value.
  split; [|split].
  - rewrite crc8check_run, crc8_remainder_gf2, raw24_block_value by assumption.
    reflexivity.
  - apply gf2_rem_zero_iff_multiple.
  - intros k Hk Hpass.
    rewrite crc8check_run in Hpass.
    assert (Hz : HTU21D.crc8_remainder v0 v1 v2 = 0).
    { apply Z.eqb_eq. congruence. }
    destruct (crc8_single_bit H0 H1 H2 Hk Hz) as (w0 & w1 & w2 & Hf & Hne).
    rewrite Hf, crc8check_run.
    apply Z.eqb_neq in Hne. rewrite Hne. reflexivity.
Qed.

Lemma htu21d_crc8check_division_and_single_bit_errors_witness :
  HTU21D._crc8check [0x68; 0x3A; 0x7C] HTU21D.blank [] = (Ret true, HTU21D.blank, [])
  /\ HTU21D._crc8check (HTU21D.flip_bit 13 [0x68; 0x3A; 0x7C]) HTU21D.blank []
     = (Ret false, HTU21D.blank, []).
Proof.
  assert (B0 : HTU21D.is_byte 0x68) by (unfold HTU21D.is_byte; lia).
  assert (B1 : HTU21D.is_byte 0x3A) by (unfold HTU21D.is_byte; lia).
  assert (B2 : HTU21D.is_byte 0x7C) by (unfold HTU21D.is_byte; lia).
  destruct (@htu21d_crc8check_division_and_single_bit_errors
              0x68 0x3A 0x7C HTU21D.blank [] B0 B1 B2) as (Hacc & _ & Hflip).
  split.
  - rewrite Hacc. vm_compute. reflexivity.
  - apply Hflip; [lia|]. rewrite Hacc. vm_compute. reflexivity.
Defined.

(* ================================================================== *)
(** * HTU21D: the update cycle *)
(* ================================================================== *)

Section HTU21D_Update.

Import HTU21D.

Variable bus : SMBus.

(** The two blocks come back only when all four bus calls succeeded, and
    then nothing was assigned. *)
Lemma read_blocks_some (s : state) (t : list event) blocks s1 t1 :
  read_blocks bus s t = (Ret (Some blocks), s1, t1) -> s1 = s.
Proof.
  unfold read_blocks, bind, get, try_except, call, sleep, emit, modify,
    report, ret.
  destruct (write_byte bus t (_i2c_add s) CMD_READ_TEMP_NOHOLD);
    [|destruct (_logger s); discriminate].
  destruct (read_i2c_block_data bus _ (_i2c_add s) CMD_READ_TEMP_HOLD 3);
    [|destruct (_logger s); discriminate].
  destruct (write_byte bus _ (_i2c_add s) CMD_READ_HUM_NOHOLD);
    [|destruct (_logger s); discriminate].
  destruct (read_i2c_block_data bus _ (_i2c_add s) CMD_READ_HUM_HOLD 3);
    [|destruct (_logger s); discriminate].
  intros H. inversion H. reflexivity.
Qed.

Lemma store_blocks_bad_temperature (s : state) (t : list event) t0 t1 t2 buf_h :
  crc8_remainder t0 t1 t2 <> 0 ->
  exists t',
    store_blocks [t0; t1; t2] buf_h s t
    = (Ret tt, set_ok false (set_temperature (Int (-255)) s), t').
Proof.
  intros Hbad. apply Z.eqb_neq in Hbad.
  unfold store_blocks.
  erewrite bind_run by apply crc8check_run.
  rewrite Hbad.
  unfold bind, modify, get, report. cbn.
  destruct (_logger s); eexists; reflexivity.
Qed.

Lemma store_blocks_bad_humidity (s : state) (t : list event) t0 t1 t2 h0 h1 h2 :
  crc8_remainder t0 t1 t2 = 0 ->
  crc8_remainder h0 h1 h2 <> 0 ->
  store_blocks [t0; t1; t2] [h0; h1; h2] s t
  = (Ret tt,
     set_ok false
       (set_humidity (Int (-255))
          (set_temperature
             (Float (_calc_temp (Z.land (Z.lor (Z.shiftl t0 8) t1) 0xFFFC))) s)),
     t).
Proof.
  intros Hgood Hbad. apply Z.eqb_eq in Hgood. apply Z.eqb_neq in Hbad.
  unfold store_blocks.
  erewrite bind_run by apply crc8check_run.
  rewrite Hgood.
  do 3 (erewrite bind_run by reflexivity).
  erewrite bind_run by apply crc8check_run.
  rewrite Hbad. reflexivity.
Qed.

Lemma store_blocks_good (s : state) (t : list event) t0 t1 t2 h0 h1 h2 :
  crc8_remainder t0 t1 t2 = 0 ->
  crc8_remainder h0 h1 h2 = 0 ->
  exists rh,
    store_blocks [t0; t1; t2] [h0; h1; h2] s t
    = (Ret tt,
       set_humidity (Float rh)
         (set_temperature
            (Float (_calc_temp (Z.land (Z.lor (Z.shiftl t0 8) t1) 0xFFFC))) s),
       t).
Proof.
  intros Hgood Hgood'. apply Z.eqb_eq in Hgood, Hgood'.
  unfold store_blocks.
  erewrite bind_run by apply crc8check_run.
  rewrite Hgood.
  do 3 (erewrite bind_run by reflexivity).
  erewrite bind_run by apply crc8check_run.
  rewrite Hgood'.
  eexists. reflexivity.
Qed.

End HTU21D_Update.

(** C8.  In an update whose two blocks were read: a temperature block that
    fails its CRC leaves the sample invalid (and the temperature at the
    sentinel -255); a humidity block that alone fails its CRC leaves the
    converted temperature stored, the humidity at the sentinel -255 and the
    sample invalid; and [sample_ok] is true exactly when the validity flag
    is set, the temperature is above -100 and the humidity above -1. *)
Theorem htu21d_crc_failure_invalidates_sample :
  forall (bus : SMBus) (s : HTU21D.state) (t : list event)
         (t0 t1 t2 h0 h1 h2 : Z) (s1 : HTU21D.state) (tr1 : list event),
    HTU21D.read_blocks bus s t
    = (Ret (Some ([t0; t1; t2], [h0; h1; h2])), s1, tr1) ->
    exists s' tr',
      HTU21D.update bus s t = (Ret tt, s', tr')
      /\ (HTU21D.crc8_remainder t0 t1 t2 <> 0 ->
          HTU21D._ok s' = false
          /\ HTU21D.sample_ok s' = false
          /\ HTU21D._temperature s' = Int (-255)
          /\ HTU21D._humidity s' = HTU21D._humidity s)
      /\ (HTU21D.crc8_remainder t0 t1 t2 = 0 ->
          HTU21D.crc8_remainder h0 h1 h2 <> 0 ->
          HTU21D._temperature s'
          = Float (HTU21D._calc_temp
                     (Z.land (Z.lor (Z.shiftl t0 8) t1) 0xFFFC))
          /\ HTU21D._humidity s' = Int (-255)
          /\ HTU21D._ok s' = false
          /\ HTU21D.sample_ok s' = false)
      /\ (HTU21D.sample_ok s' = true
          <-> HTU21D._ok s' = true
              /\ gtb (HTU21D._temperature s') (Int (-100)) = true
              /\ gtb (HTU21D._humidity s') (Int (-1)) = true).
Proof.
  intros bus s t t0 t1 t2 h0 h1 h2 s1 tr1 Hread.
  pose proof (read_blocks_some _ _ _ Hread) as ->.
  unfold HTU21D.update. erewrite bind_run by exact Hread.
  assert (Hok : forall s' : HTU21D.state,
    HTU21D.sample_ok s' = true
    <-> HTU21D._ok s' = true
        /\ gtb (HTU21D._temperature s') (Int (-100)) = true
        /\ gtb (HTU21D._humidity s') (Int (-1)) = true).
  { intros s'. unfold HTU21D.sample_ok. rewrite !andb_true_iff. tauto. }
  destruct (Z.eq_dec (HTU21D.crc8_remainder t0 t1 t2) 0) as [Ht|Ht].
  - destruct (Z.eq_dec (HTU21D.crc8_remainder h0 h1 h2) 0) as [Hh|Hh].
    + destruct (store_blocks_good s tr1 _ _ _ _ _ _ Ht Hh) as [rh Hrun].
      eexists _, _. split; [exact Hrun|].
      split; [contradiction|]. split; [contradiction|]. apply Hok.
    + eexists _, _. split; [apply (store_blocks_bad_humidity s tr1 _ _ _ _ _ _ Ht Hh)|].
      split; [contradiction|]. split; [|apply Hok].
      intros _ _. repeat split.
  - destruct (store_blocks_bad_temperature s tr1 _ _ _ [h0; h1; h2] Ht) as [t' Hrun].
    eexists _, _. split; [exact Hrun|].
    split; [|split; [contradiction|apply Hok]].
    intros _. repeat split.
Qed.

Lemma htu21d_crc_failure_invalidates_sample_witness :
  exists s' tr',
    HTU21D.update (Examples.htu21d_bus [0x68; 0x3A; 0x7C] [0x4E; 0x85; 0x6A])
                  HTU21D.blank []
    = (Ret tt, s', tr')
    /\ HTU21D._humidity s' = Int (-255)
    /\ HTU21D.sample_ok s' = false.
Proof.
  destruct (@htu21d_crc_failure_invalidates_sample
              (Examples.htu21d_bus [0x68; 0x3A; 0x7C] [0x4E; 0x85; 0x6A])
              HTU21D.blank [] 0x68 0x3A 0x7C 0x4E 0x85 0x6A
              HTU21D.blank
              [EWriteByte 0 HTU21D.CMD_READ_TEMP_NOHOLD;
               ESleep HTU21D.MEASUREMENT_WAIT_TIME;
               EReadBlockData 0 HTU21D.CMD_READ_TEMP_HOLD 3;
               EWriteByte 0 HTU21D.CMD_READ_HUM_NOHOLD;
               ESleep HTU21D.MEASUREMENT_WAIT_TIME;
               EReadBlockData 0 HTU21D.CMD_READ_HUM_HOLD 3]
              eq_refl)
    as (s' & tr' & Hrun & _ & Hhum & _).
  exists s', tr'. split; [exact Hrun|].
  destruct Hhum as (_ & Hh & _ & Hs).
  - vm_compute. reflexivity.
  - vm_compute. discriminate.
  - split; assumption.
Defined.

(* ================================================================== *)
(** * Signs of floats *)
(* ================================================================== *)

Section FloatSigns.











End FloatSigns.

(* ================================================================== *)
(** * BH1750: what each method does *)
(* ================================================================== *)

Section BH1750_Runs.

Import BH1750.

Variable bus : SMBus.

Lemma set_mode_run (m : Z) (s : state) (t : list event) :
  let failed := nacked (write_byte bus t (_i2c_add s) m) in
  _set_mode bus m s t
  = (Ret tt, set_ok (negb failed) (set_mode m s),
     t ++ EWriteByte (_i2c_add s) m
       :: complaint (_logger s) failed "error" "Bad writing in bus: %s").
Proof.
  unfold _set_mode, bind, modify, get, try_except, call, report, emit.
  cbn. destruct (write_byte bus t (_i2c_add s) m); cbn.
  - reflexivity.
  - destruct (_logger s); cbn; rewrite <- app_assoc; reflexivity.
Qed.

(** With the sensitivity in its range the divisor of [_get_result] is not
    zero, whatever the resolution. *)
Lemma divisor_nonzero (m : Z) (high_res : bool) :
  31 <= m <= 254 ->
  ((1.2 * (Z2F m / 69.0) * Z2F (if high_res then 2 else 1)) =? 0)%float = false.
Proof.
  intros Hm.
  assert (H : forall k, 31 <= k < 31 + Z.of_nat 224 ->
     (fun k => negb ((1.2 * (Z2F k / 69.0) * Z2F 2) =? 0)%float
               && negb ((1.2 * (Z2F k / 69.0) * Z2F 1) =? 0)%float) k = true).
  { apply range_forallb. vm_compute. reflexivity. }
  specialize (H m ltac:(cbn; lia)). cbv beta in H.
  apply andb_true_iff in H as [H2 H1].
  destruct high_res; apply negb_true_iff; assumption.
Qed.


Lemma swap_bytes_spec (data : Z) :
  0 <= data < 65536 -> swap_bytes data = (data mod 256) * 256 + data / 256.
Proof.
  intros Hd. unfold swap_bytes.
  change 0xff with (Z.ones 8).
  rewrite Z.land_ones, Z.shiftr_div_pow2 by lia.
  change (2 ^ 8) with 256.
  assert (Hb : HTU21D.is_byte (data / 256)).
  { unfold HTU21D.is_byte. split.
    - apply Z.div_pos; lia.
    - apply Z.div_lt_upper_bound; lia. }
  rewrite Z.lor_comm, <- (byte_pair_lor _ Hb).
  rewrite Z.shiftl_mul_pow2 by lia. reflexivity.
Qed.



Lemma get_result_run (s : state) (t : list event) (md m : Z) :
  _mode s = Some md -> _mtreg s = Some m -> 31 <= m <= 254 ->
  let answer := read_word_data bus t (_i2c_add s) md in
  _get_result bus s t
  = (Ret (match answer with
          | Some data => Float (lux (_high_res s) m data)
          | None => Int (-1)
          end),
     set_ok (negb (nacked answer)) s,
     t ++ EReadWordData (_i2c_add s) md
       :: complaint (_logger s) (nacked answer) "error" "Bad reading in bus: %s").
Proof.
  intros Hmd Hm Hr. cbv zeta.
  unfold _get_result, bind, modify, get, try_except, call, report, emit, unwrap.
  cbn. rewrite Hmd. cbn.
  destruct (read_word_data bus t (_i2c_add s) md) as [data|]; cbn.
  - rewrite Hm. cbn. unfold fdiv. rewrite divisor_nonzero by assumption.
    reflexivity.
  - destruct (_logger s); cbn; rewrite <- app_assoc; reflexivity.
Qed.

Lemma mode_differs_false (op : Z) (md : option Z) :
  mode_differs op md = false -> md = Some op.
Proof.
  destruct md as [m|]; cbn; [|discriminate].
  intros H. apply negb_false_iff, Z.eqb_eq in H. subst. reflexivity.
Qed.

Lemma needs_rearm_false (s : state) :
  needs_rearm s = false ->
  _continuous_sampling s = true
  /\ ltb (_light_level s) (Int 0) = false
  /\ _mode s = Some (_operation_mode s).
Proof.
  unfold needs_rearm. intros H.
  apply orb_false_iff in H as [H H3]. apply orb_false_iff in H as [H1 H2].
  apply negb_false_iff in H1. auto using mode_differs_false.
Qed.

(** One call of [update], told by what it leaves in the trace before and
    after its single word read, and by the fields it assigns. *)
Lemma update_run (s : state) (t : list event) (m : Z) :
  _mtreg s = Some m -> 31 <= m <= 254 ->
  exists s' pre post,
    update bus s t
    = (Ret tt, s',
       t ++ pre ++ EReadWordData (_i2c_add s) (_operation_mode s) :: post)
    /\ quiet pre
       = (if needs_rearm s
          then [EWriteByte (_i2c_add s) POWER_ON;
                EWriteByte (_i2c_add s) RESET;
                EWriteByte (_i2c_add s) (_operation_mode s);
                ESleep (wait_time (_low_res s) m (_delay s))]
          else [])
    /\ (needs_rearm s = false -> pre = [])
    /\ quiet post
       = (if _continuous_sampling s then []
          else [EWriteByte (_i2c_add s) POWER_DOWN])
    /\ config s' = config s
    /\ _mode s'
       = Some (if _continuous_sampling s then _operation_mode s else POWER_DOWN)
    /\ _light_level s'
       = match read_word_data bus (t ++ pre) (_i2c_add s) (_operation_mode s) with
         | Some data => Float (lux (_high_res s) m data)
         | None => Int (-1)
         end
    /\ (_continuous_sampling s = true ->
        _ok s' = negb (nacked (read_word_data bus (t ++ pre) (_i2c_add s)
                                              (_operation_mode s)))).
Proof.
  intros Hm Hr. unfold update.
  erewrite bind_run by reflexivity.
  destruct (needs_rearm s) eqn:Hn.
  - (* reset, arm, wait *)
    set (a := _i2c_add s).
    set (f1 := nacked (write_byte bus t a POWER_ON)).
    set (c1 := complaint (_logger s) f1 "error" "Bad writing in bus: %s").
    set (t1 := t ++ EWriteByte a POWER_ON :: c1).
    set (f2 := nacked (write_byte bus t1 a RESET)).
    set (c2 := complaint (_logger s) f2 "error" "Bad writing in bus: %s").
    set (t2 := t1 ++ EWriteByte a RESET :: c2).
    set (f3 := nacked (write_byte bus t2 a (_operation_mode s))).
    set (c3 := complaint (_logger s) f3 "error" "Bad writing in bus: %s").
    set (t3 := t2 ++ EWriteByte a (_operation_mode s) :: c3).
    set (w := ESleep (wait_time (_low_res s) m (_delay s))).
    set (s3 := set_ok (negb f3) (set_mode (_operation_mode s)
                 (set_ok (negb f2) (set_mode RESET
                    (set_ok (negb f1) (set_mode POWER_ON s)))))).
    set (pre := EWriteByte a POWER_ON :: c1 ++ EWriteByte a RESET :: c2
                  ++ EWriteByte a (_operation_mode s) :: c3 ++ [w]).
    assert (Ht : t3 ++ [w] = t ++ pre).
    { unfold pre, t3, t2, t1. rewrite <- !app_assoc. reflexivity. }
    assert (Hpre :
      (_reset bus ;; _set_mode bus (_operation_mode s) ;; _wait_for_result) s t
      = (Ret tt, s3, t ++ pre)).
    { unfold _reset, _power_on, _wait_for_result.
      erewrite bind_run;
        [|erewrite bind_run; [|apply set_mode_run]; apply set_mode_run].
      erewrite bind_run; [|apply set_mode_run].
      cbn [_i2c_add _logger set_ok set_mode].
      fold a f1 c1 t1 f2 c2 t2 f3 c3 t3 s3.
      erewrite bind_run by reflexivity.
      unfold unwrap. change (_mtreg s3) with (_mtreg s). rewrite Hm.
      erewrite bind_run by reflexivity.
      unfold sleep, emit. rewrite <- Ht. reflexivity. }
    erewrite bind_run; [|exact Hpre].
    assert (Hmd : _mode s3 = Some (_operation_mode s)) by reflexivity.
    erewrite bind_run;
      [|apply (@get_result_run s3 (t ++ pre) _ m Hmd Hm Hr)].
    set (ans := read_word_data bus (t ++ pre) (_i2c_add s3) (_operation_mode s)).
    erewrite bind_run by reflexivity.
    change (_i2c_add s3) with a in *. change (_logger s3) with (_logger s).
    change (_high_res s3) with (_high_res s).
    set (cr := complaint (_logger s) (nacked ans) "error" "Bad reading in bus: %s").
    destruct (_continuous_sampling s) eqn:Hc; cbn [negb].
    + eexists _, pre, cr. split.
      { unfold ret. rewrite <- app_assoc. reflexivity. }
      split; [unfold pre, c1, c2, c3, w; quiet_norm; reflexivity|].
      split; [discriminate|].
      split; [apply quiet_complaint|].
      split; [reflexivity|].
      split; [reflexivity|].
      split; [reflexivity|].
      intros _. reflexivity.
    + unfold _power_down. rewrite set_mode_run.
      cbn [_i2c_add _logger set_ok set_light_level set_mode].
      change (_i2c_add s3) with a. change (_logger s3) with (_logger s).
      eexists _, pre, _. split.
      { rewrite <- !app_assoc. cbn [app]. reflexivity. }
      split; [unfold pre, c1, c2, c3, w; quiet_norm; reflexivity|].
      split; [discriminate|].
      split; [unfold cr; quiet_norm; reflexivity|].
      split; [reflexivity|].
      split; [reflexivity|].
      split; [reflexivity|].
      discriminate.
  - (* straight to the reading *)
    destruct (needs_rearm_false s Hn) as (Hc & Hl & Hmd).
    erewrite bind_run by reflexivity.
    erewrite bind_run;
      [|apply (@get_result_run s t _ m Hmd Hm Hr)].
    erewrite bind_run by reflexivity.
    rewrite Hc. cbn [negb].
    eexists _, [], _. split; [reflexivity|].
    rewrite app_nil_r.
    split; [reflexivity|].
    split; [reflexivity|].
    split; [apply quiet_complaint|].
    split; [reflexivity|].
    split; [exact Hmd|].
    split; [reflexivity|].
    intros _. reflexivity.
Qed.

Lemma clamp_range (sensitivity : Z) : 31 <= clamp sensitivity <= 254.
Proof.
  unfold clamp.
  destruct (Z.ltb_spec sensitivity 31), (Z.ltb_spec 254 sensitivity); lia.
Qed.

Lemma set_sensitivity_run (sensitivity : Z) (s : state) (t : list event) :
  exists s' t',
    set_sensitivity bus sensitivity s t = (Ret tt, s', t')
    /\ _mtreg s' = Some (clamp sensitivity)
    /\ _mode s' = Some POWER_DOWN
    /\ _light_level s' = _light_level s
    /\ (_i2c_add s', _logger s', _delay s', _operation_mode s',
        _continuous_sampling s', _high_res s', _low_res s')
       = (_i2c_add s, _logger s, _delay s, _operation_mode s,
          _continuous_sampling s, _high_res s, _low_res s).
Proof.
  unfold set_sensitivity, _power_on, _power_down.
  set (s1 := set_mtreg (clamp sensitivity) s).
  assert (H1 : (if sensitivity <? 31 then modify (set_mtreg 31)
                else if 254 <? sensitivity then modify (set_mtreg 254)
                else modify (set_mtreg sensitivity)) s t = (Ret tt, s1, t)).
  { unfold s1, clamp. destruct (sensitivity <? 31); [reflexivity|].
    destruct (254 <? sensitivity); reflexivity. }
  erewrite bind_run by exact H1.
  erewrite bind_run by apply set_mode_run.
  erewrite bind_run by reflexivity.
  cbn [_mtreg set_ok set_mode s1 set_mtreg unwrap].
  erewrite bind_run by reflexivity.
  erewrite bind_run by apply set_mode_run.
  erewrite bind_run by apply set_mode_run.
  rewrite set_mode_run.
  eexists _, _. split; [reflexivity|].
  repeat split.
Qed.

(** The constructor, up to its closing [update]. *)
Lemma init_run address om delay sensitivity logger (s : state) (t : list event) :
  exists s0 t0,
    init bus address om delay sensitivity logger s t = update bus s0 t0
    /\ _mtreg s0 = Some (clamp sensitivity)
    /\ _mode s0 = Some POWER_DOWN
    /\ _light_level s0 = Int (-1)
    /\ _i2c_add s0 = address
    /\ _delay s0 = (to_float delay / 1000)%float
    /\ _operation_mode s0 = fst (OPERATION_MODES om)
    /\ _continuous_sampling s0 = snd (OPERATION_MODES om)
    /\ _high_res s0 = (Z.land (fst (OPERATION_MODES om)) 0x03 =? 0x01)
    /\ _low_res s0 = (Z.land (fst (OPERATION_MODES om)) 0x03 =? 0x03).
Proof.
  unfold init, _power_down.
  erewrite bind_run by reflexivity.
  erewrite bind_run by apply set_mode_run.
  match goal with
  | |- context [bind (set_sensitivity bus sensitivity) _ ?s1 ?t1] =>
      destruct (set_sensitivity_run sensitivity s1 t1)
        as (s2 & t2 & Hrun & Hm & Hmd & Hl & Hcfg)
  end.
  erewrite bind_run by exact Hrun.
  erewrite bind_run by reflexivity.
  cbn in Hcfg. inversion Hcfg.
  eexists _, _. split; [reflexivity|].
  cbn. repeat split; assumption.
Qed.

End BH1750_Runs.

Section BH1750_Reachable.

Import BH1750.

Variable bus : SMBus.

Lemma updates_run (n : nat) :
  forall (s : state) (t : list event) (m : Z),
    _mtreg s = Some m -> 31 <= m <= 254 ->
    exists s' t', updates bus n s t = (Ret tt, s', t') /\ config s' = config s.
Proof.
  induction n as [|n IH]; intros s t m Hm Hr.
  - exists s, t. split; reflexivity.
  - destruct (update_run bus s t Hm Hr)
      as (s1 & pre & post & Hrun & _ & _ & _ & Hcfg & _).
    assert (Hm1 : _mtreg s1 = Some m).
    { unfold config in Hcfg. inversion Hcfg. congruence. }
    destruct (IH s1 (t ++ pre ++ EReadWordData (_i2c_add s) (_operation_mode s) :: post)
                 m Hm1 Hr) as (s' & t' & Hrun' & Hcfg').
    exists s', t'. split; [|congruence].
    cbn [updates]. erewrite bind_run by exact Hrun. exact Hrun'.
Qed.

(** The constructor returns, and so does any number of updates after it;
    the mode flags and the sensitivity are then those of the constructor's
    arguments. *)
Lemma constructed_run address om delay sensitivity logger (n : nat)
    (s0 : state) (t0 : list event) :
  exists s t,
    (init bus address om delay sensitivity logger ;; updates bus n) s0 t0
    = (Ret tt, s, t)
    /\ _i2c_add s = address
    /\ _mtreg s = Some (clamp sensitivity)
    /\ _operation_mode s = fst (OPERATION_MODES om)
    /\ _continuous_sampling s = snd (OPERATION_MODES om)
    /\ _high_res s = (Z.land (fst (OPERATION_MODES om)) 0x03 =? 0x01)
    /\ _low_res s = (Z.land (fst (OPERATION_MODES om)) 0x03 =? 0x03)
    /\ _delay s = (to_float delay / 1000)%float.
Proof.
  destruct (init_run bus address om delay sensitivity logger s0 t0)
    as (s1 & t1 & Hinit & Hm & _ & _ & Ha & Hd & Hop & Hc & Hh & Hl).
  destruct (update_run bus s1 t1 Hm (clamp_range sensitivity))
    as (s2 & pre & post & Hrun & _ & _ & _ & Hcfg & _).
  assert (Hm2 : _mtreg s2 = Some (clamp sensitivity)).
  { unfold config in Hcfg. inversion Hcfg. congruence. }
  destruct (updates_run n s2
              (t1 ++ pre ++ EReadWordData (_i2c_add s1) (_operation_mode s1) :: post)
              Hm2 (clamp_range sensitivity)) as (s & t & Hrun' & Hcfg').
  exists s, t. split.
  - erewrite bind_run; [exact Hrun'|]. rewrite Hinit. exact Hrun.
  - rewrite Hcfg in Hcfg'. unfold config in Hcfg'. inversion Hcfg'.
    repeat split; congruence.
Qed.

Lemma needs_rearm_true (s : state) :
  needs_rearm s = true
  <-> _continuous_sampling s = false
      \/ ltb (_light_level s) (Int 0) = true
      \/ _mode s <> Some (_operation_mode s).
Proof.
  unfold needs_rearm. rewrite !orb_true_iff, negb_true_iff.
  split.
  - intros [[H|H]|H]; [tauto|tauto|].
    right. right. intros Heq. rewrite Heq in H. cbn in H.
    rewrite Z.eqb_refl in H. discriminate.
  - intros [H|[H|H]]; [tauto|tauto|].
    right. destruct (mode_differs (_operation_mode s) (_mode s)) eqn:E;
      [reflexivity|].
    apply mode_differs_false in E. contradiction.
Qed.


End BH1750_Reachable.

(* ================================================================== *)
(** * BH1750: conversion and rounding *)
(* ================================================================== *)

(** C4, as stated, fails.  In continuous high resolution mode 1 with the
    default sensitivity 69, the word 0x7800 (count 120 once its bytes are
    exchanged) is stored as 120 / (1.2 * 1 * 1) = 100 lx, not as
    120 / (1.2 * 1 * 2) = 50 lx: the multiplier of mode 1 is 1. *)
Lemma bh1750_high_res_mode_1_multiplier_is_not_2 :
  let s := Examples.state_of
             (Examples.bh1750_reading BH1750.CONTINUOUS_HIGH_RES_MODE_1 0x7800) in
  BH1750.swap_bytes 0x7800 = 120
  /\ BH1750._mtreg s = Some 69
  /\ eqb (BH1750._light_level s)
         (Float (Z2F 120 / (1.2 * (Z2F 69 / 69.0) * 2))) = false
  /\ eqb (BH1750._light_level s)
         (Float (1 / (1.2 * (Z2F 69 / 69.0) * 1) * Z2F 120)) = true.
Proof. vm_compute. repeat split. Qed.

(** C4, amended.  A driver built in any mode, after any number of updates,
    holds the clamped sensitivity; its next update stores, for a word the
    bus returns, the count (the word with its two bytes exchanged) scaled by
    1 / (1.2 * (sensitivity / 69) * multiplier), where the multiplier is 2
    in the two high resolution modes 2 (continuous and one-time) and 1 in
    every other mode, high resolution mode 1 included. *)
Theorem bh1750_lux_conversion :
  forall (bus : SMBus) (address : Z) (om : BH1750.operation_mode)
         (delay : num) (sensitivity : Z) (logger : bool) (n : nat)
         (s : BH1750.state) (t : list event),
    (BH1750.init bus address om delay sensitivity logger ;; BH1750.updates bus n)
      BH1750.blank []
    = (Ret tt, s, t) ->
    let code := fst (BH1750.OPERATION_MODES om) in
    let multiplier :=
      match om with
      | BH1750.CONTINUOUS_HIGH_RES_MODE_2 | BH1750.ONE_TIME_HIGH_RES_MODE_2 => 2
      | _ => 1
      end in
    31 <= BH1750.clamp sensitivity <= 254
    /\ exists s' pre post,
         BH1750.update bus s t
         = (Ret tt, s', t ++ pre ++ EReadWordData address code :: post)
         /\ forall data,
              read_word_data bus (t ++ pre) address code = Some data ->
              0 <= data < 65536 ->
              let count := (data mod 256) * 256 + data / 256 in
              BH1750._light_level s'
              = Float (1 / (1.2 * (Z2F (BH1750.clamp sensitivity) / 69.0)
                            * Z2F multiplier)
                       * Z2F count)%float.
Proof.
  intros bus address om delay sensitivity logger n s t Hrun code multiplier.
  split; [apply clamp_range|].
  destruct (constructed_run bus address om delay sensitivity logger n
              BH1750.blank [])
    as (s1 & t1 & Hrun1 & Ha & Hm & Hop & _ & Hh & _).
  rewrite Hrun in Hrun1. inversion Hrun1. subst s1 t1. clear Hrun1.
  destruct (update_run bus s t Hm (clamp_range sensitivity))
    as (s' & pre & post & Hup & _ & _ & _ & _ & _ & Hl & _).
  rewrite Ha, Hop in Hup, Hl. fold code in Hup, Hl.
  exists s', pre, post. split; [exact Hup|].
  intros data Hans Hd count. rewrite Hl, Hans. unfold BH1750.lux.
  rewrite (swap_bytes_spec Hd). fold count.
  replace (if BH1750._high_res s then 2 else 1) with multiplier.
  - reflexivity.
  - rewrite Hh. unfold multiplier. destruct om; reflexivity.
Qed.

Lemma bh1750_lux_conversion_witness :
  exists s',
    BH1750._light_level s' = Float (1 / (1.2 * (Z2F 69 / 69.0) * Z2F 2)
                                    * Z2F 120)%float.
Proof.
  pose (bus := table_bus (fun _ => None) (Some 0x7800) (fun _ => None)).
  pose (r := (BH1750.init bus BH1750.DEFAULT_I2C_ADDRESS
                BH1750.CONTINUOUS_HIGH_RES_MODE_2 BH1750.DEFAULT_DELAY_MS
                BH1750.DEFAULT_SENSITIVITY false ;; BH1750.updates bus 1)
               BH1750.blank []).
  destruct (@bh1750_lux_conversion bus BH1750.DEFAULT_I2C_ADDRESS
              BH1750.CONTINUOUS_HIGH_RES_MODE_2 BH1750.DEFAULT_DELAY_MS
              BH1750.DEFAULT_SENSITIVITY false 1%nat
              (Examples.state_of r) (Examples.trace_of r))
    as (_ & s' & pre & post & _ & Hl).
  - vm_compute. reflexivity.
  - exists s'. apply (Hl 0x7800).
    + reflexivity.
    + lia.
Defined.



(* ================================================================== *)
(** * BH1750: the reset path and the straight path *)
(* ================================================================== *)






(* ================================================================== *)
(** * What a method leaves alone, and what it lets escape *)
(* ================================================================== *)

Section Frame.

Context {S : Type} (R : S -> S -> Prop).
Hypothesis R_refl : forall s, R s s.
Hypothesis R_trans : forall a b c, R a b -> R b c -> R a c.

Lemma keeps_ret {A} (a : A) : keeps R (ret a).
Proof. intros s t o s' t' H. inversion H. apply R_refl. Qed.

Lemma keeps_raise {A} (e : exn) : keeps R (@raise S A e).
Proof. intros s t o s' t' H. inversion H. apply R_refl. Qed.

Lemma keeps_out_of_fuel {A} : keeps R (@out_of_fuel S A).
Proof. intros s t o s' t' H. inversion H. apply R_refl. Qed.

Lemma keeps_get : keeps R (@get S).
Proof. intros s t o s' t' H. inversion H. apply R_refl. Qed.

Lemma keeps_emit (e : event) : keeps R (@emit S e).
Proof. intros s t o s' t' H. inversion H. apply R_refl. Qed.

Lemma keeps_report logger level msg : keeps R (@report S logger level msg).
Proof. unfold report. destruct logger; apply keeps_emit. Qed.

Lemma keeps_call {A} (e : event) (answer : list event -> option A) :
  keeps R (@call S A e answer).
Proof.
  intros s t o s' t' H. unfold call in H.
  destruct (answer t); inversion H; apply R_refl.
Qed.

Lemma keeps_indexed {A} (x : option A) : keeps R (@indexed S A x).
Proof. destruct x; [apply keeps_ret|apply keeps_raise]. Qed.

Lemma keeps_unwrap {A} (x : option A) : keeps R (@unwrap S A x).
Proof. destruct x; [apply keeps_ret|apply keeps_raise]. Qed.

Lemma keeps_getitem (l : list Z) (i : nat) : keeps R (@getitem S l i).
Proof.
  unfold getitem. destruct (nth_error l i); [apply keeps_ret|apply keeps_raise].
Qed.

Lemma keeps_modify (f : S -> S) : (forall s, R s (f s)) -> keeps R (modify f).
Proof. intros Hf s t o s' t' H. inversion H. apply Hf. Qed.

Lemma keeps_bind {A B} (m : M S A) (k : A -> M S B) :
  keeps R m -> (forall a, keeps R (k a)) -> keeps R (bind m k).
Proof.
  intros Hm Hk s t o s' t' H. unfold bind in H.
  destruct (m s t) as [[[a|e|] s1] t1] eqn:E.
  - eapply R_trans; [eapply Hm, E|eapply Hk, H].
  - inversion H. subst. eapply Hm, E.
  - inversion H. subst. eapply Hm, E.
Qed.

Lemma keeps_try_except {A} (body handler : M S A) :
  keeps R body -> keeps R handler -> keeps R (try_except body handler).
Proof.
  intros Hb Hh s t o s' t' H. unfold try_except in H.
  destruct (body s t) as [[[a|[]|] s1] t1] eqn:E;
    try (inversion H; subst; eapply Hb, E).
  eapply R_trans; [eapply Hb, E|eapply Hh, H].
Qed.

End Frame.

Section Catches.

Context {S : Type}.

Lemma catches_ret {A} (a : A) : catches (@ret S A a).
Proof. intros s t s' t' H. discriminate. Qed.

Lemma catches_get : catches (@get S).
Proof. intros s t s' t' H. discriminate. Qed.

Lemma catches_modify (f : S -> S) : catches (modify f).
Proof. intros s t s' t' H. discriminate. Qed.

Lemma catches_emit (e : event) : catches (@emit S e).
Proof. intros s t s' t' H. discriminate. Qed.

Lemma catches_report logger level msg : catches (@report S logger level msg).
Proof. unfold report. destruct logger; apply catches_emit. Qed.

Lemma catches_indexed {A} (x : option A) : catches (@indexed S A x).
Proof. destruct x; intros s t s' t' H; discriminate. Qed.

Lemma catches_unwrap {A} (x : option A) : catches (@unwrap S A x).
Proof. destruct x; intros s t s' t' H; discriminate. Qed.

Lemma catches_getitem (l : list Z) (i : nat) : catches (@getitem S l i).
Proof.
  unfold getitem. destruct (nth_error l i); intros s t s' t' H; discriminate.
Qed.

Lemma catches_bind {A B} (m : M S A) (k : A -> M S B) :
  catches m -> (forall a, catches (k a)) -> catches (bind m k).
Proof.
  intros Hm Hk s t s' t' H. unfold bind in H.
  destruct (m s t) as [[[a|e|] s1] t1] eqn:E.
  - exact (Hk a _ _ _ _ H).
  - inversion H. subst. exact (Hm _ _ _ _ E).
  - discriminate.
Qed.

(** Whatever its body does, a [try] whose handler raises nothing lets no
    [OSError] out. *)
Lemma catches_try_except {A} (body handler : M S A) :
  catches handler -> catches (try_except body handler).
Proof.
  intros Hh s t s' t' H. unfold try_except in H.
  destruct (body s t) as [[[a|[]|] s1] t1] eqn:E; try discriminate.
  exact (Hh _ _ _ _ H).
Qed.

End Catches.

(* ================================================================== *)
(** * BME280: what each part of [update] does *)
(* ================================================================== *)

Section BME280_Runs.

Import BME280.

Lemma unchanged_refl (s : state) : unchanged s s.
Proof. split; reflexivity. Qed.

Lemma unchanged_trans (a b c : state) :
  unchanged a b -> unchanged b c -> unchanged a c.
Proof. intros [H1 H2] [H3 H4]. split; congruence. Qed.

Variable bus : SMBus.

Lemma read_registers_unchanged (address : Z) (regs : list Z) :
  keeps unchanged (read_registers bus address regs).
Proof.
  induction regs as [|i regs IH]; cbn [read_registers].
  - apply (keeps_ret _ unchanged_refl).
  - apply (keeps_bind unchanged_trans); [apply (keeps_call _ unchanged_refl)|].
    intros v. apply (keeps_bind unchanged_trans); [exact IH|].
    intros vs. apply (keeps_ret _ unchanged_refl).
Qed.

Lemma populate_unchanged : keeps unchanged (_populate_calibration_data bus).
Proof.
  unfold _populate_calibration_data.
  apply (keeps_bind unchanged_trans); [apply (keeps_get _ unchanged_refl)|].
  intros s.
  apply (keeps_bind unchanged_trans).
  - apply (keeps_try_except unchanged_trans).
    + repeat (apply (keeps_bind unchanged_trans);
              [apply read_registers_unchanged|intros ?]).
      apply (keeps_ret _ unchanged_refl).
    + apply (keeps_bind unchanged_trans);
        [apply (keeps_report _ unchanged_refl)|intros ?].
      apply (keeps_ret _ unchanged_refl).
  - intros [raw_data|]; [|apply (keeps_ret _ unchanged_refl)].
    repeat (apply (keeps_bind unchanged_trans);
            [first [ apply (keeps_indexed _ unchanged_refl)
                   | destruct (_with_pressure s);
                     first [ apply (keeps_indexed _ unchanged_refl)
                           | apply (keeps_ret _ unchanged_refl) ]
                   | destruct (_with_humidity s);
                     first [ apply (keeps_indexed _ unchanged_refl)
                           | apply (keeps_ret _ unchanged_refl) ] ]
            | intros ? ]).
    apply keeps_modify. intros s0. split; reflexivity.
Qed.

Lemma poll_status_unchanged (fuel : nat) : keeps unchanged (poll_status bus fuel).
Proof.
  induction fuel as [|fuel IH]; cbn [poll_status].
  - apply (keeps_out_of_fuel _ unchanged_refl).
  - apply (keeps_bind unchanged_trans); [apply (keeps_get _ unchanged_refl)|].
    intros s.
    apply (keeps_bind unchanged_trans); [apply (keeps_call _ unchanged_refl)|].
    intros status. destruct (Z.land status 8 =? 0).
    + apply (keeps_ret _ unchanged_refl).
    + apply (keeps_bind unchanged_trans); [apply (keeps_emit _ unchanged_refl)|].
      intros _. exact IH.
Qed.

(** The bus part of [update] assigns none of the three stored values. *)
Lemma acquire_unchanged (fuel : nat) (first_reading : bool) :
  keeps unchanged (acquire bus fuel first_reading).
Proof.
  unfold acquire.
  apply (keeps_bind unchanged_trans); [apply (keeps_get _ unchanged_refl)|].
  intros s.
  apply (keeps_try_except unchanged_trans).
  - apply (keeps_bind unchanged_trans).
    { destruct (first_reading || negb (_ok s)).
      - repeat (apply (keeps_bind unchanged_trans);
                [apply (keeps_call _ unchanged_refl)|intros ?]).
        apply populate_unchanged.
      - apply (keeps_ret _ unchanged_refl). }
    intros _. apply (keeps_bind unchanged_trans).
    { destruct (mode s =? 2).
      - unfold _take_forced_measurement.
        apply (keeps_bind unchanged_trans); [apply (keeps_get _ unchanged_refl)|].
        intros s0.
        apply (keeps_bind unchanged_trans); [apply (keeps_call _ unchanged_refl)|].
        intros _. apply poll_status_unchanged.
      - apply (keeps_ret _ unchanged_refl). }
    intros _.
    apply (keeps_bind unchanged_trans); [apply read_registers_unchanged|].
    intros data. apply (keeps_ret _ unchanged_refl).
  - apply (keeps_bind unchanged_trans);
      [apply (keeps_report _ unchanged_refl)|intros _].
    apply (keeps_bind unchanged_trans);
      [apply keeps_modify; intros s0; split; reflexivity|intros _].
    apply (keeps_ret _ unchanged_refl).
Qed.

(** The temperature compensation only assigns the fine temperature. *)
Lemma compensate_temperature_inv (adc_t : Z) (s : state) (t : list event)
    (T : float) (s1 : state) (t1 : list event) :
  _compensate_temperature adc_t s t = (Ret T, s1, t1) ->
  t1 = t /\ exists fine, s1 = set_temp_fine fine s.
Proof.
  unfold _compensate_temperature, bind, get, unwrap, getitem, modify, ret, raise.
  destruct (_calibration_t s) as [[|T0 [|T1 [|T2 cal]]]|];
    cbn [nth_error]; try discriminate.
  destruct (negb (_delta_temp s =? 0)%float);
    intros H; inversion H; eauto.
Qed.

End BME280_Runs.

Section BME280_Update.

Import BME280.

Variable bus : SMBus.

(** One call of [update] that got its eight bytes and whose compensations
    returned [T], [H] (humidity channel on) and [P] (pressure channel on):
    it returns, and its effect on the stored values and on the validity
    flag is that of the three checks. *)
Lemma update_outcome (fuel : nat) (first_reading : bool)
    (s : state) (t : list event) (data : list Z)
    (s_a : state) (t_a : list event) (pres_raw temp_raw hum_raw : Z)
    (T : float) (s1 : state) (H P : num) :
  acquire bus fuel first_reading s t = (Ret (Some data), s_a, t_a) ->
  raw_values data = Some (pres_raw, temp_raw, hum_raw) ->
  _compensate_temperature temp_raw (set_ok false s_a) t_a = (Ret T, s1, t_a) ->
  let s2 := after_temperature T s1 in
  (_with_humidity s = true ->
   _compensate_humidity hum_raw s2 t_a = (Ret H, s2, t_a)) ->
  let s3 := if _with_humidity s then after_humidity H s2 else s2 in
  (_with_pressure s = true ->
   _compensate_pressure pres_raw s3 t_a = (Ret P, s3, t_a)) ->
  exists s',
    update bus fuel first_reading s t = (Ret tt, s', t_a)
    /\ _temperature s'
       = (if temperature_accepted T then Some (Float T) else _temperature s)
    /\ _humidity s'
       = (if _with_humidity s && humidity_accepted H then Some H
          else _humidity s)
    /\ _pressure s'
       = (if _with_pressure s && pressure_accepted P then Some P
          else _pressure s)
    /\ _ok s'
       = temperature_accepted T
         && (negb (_with_humidity s) || humidity_accepted H)
         && (negb (_with_pressure s) || pressure_accepted P).
Proof.
  intros Hacq Hraw Htemp s2 Hhum s3 Hpres.
  destruct (acquire_unchanged bus fuel first_reading s t Hacq) as [Hst Hch].
  unfold stored in Hst. unfold channels in Hch.
  injection Hst as Ht0 Hh0 Hp0. injection Hch as Hwh Hwp Hdt.
  destruct (compensate_temperature_inv _ _ _ Htemp) as [_ [fine Hs1]].
  assert (Hwh2 : _with_humidity s2 = _with_humidity s).
  { unfold s2, after_temperature. rewrite Hs1.
    destruct (temperature_accepted T); exact Hwh. }
  assert (Hwp2 : _with_pressure s2 = _with_pressure s).
  { unfold s2, after_temperature. rewrite Hs1.
    destruct (temperature_accepted T); exact Hwp. }
  assert (Hstep :
    (if _with_humidity s
     then humidity <- _compensate_humidity hum_raw ;;
          modify (after_humidity humidity)
     else ret tt) s2 t_a = (Ret tt, s3, t_a)).
  { unfold s3. destruct (_with_humidity s); [|reflexivity].
    erewrite bind_run by (apply Hhum; reflexivity). reflexivity. }
  assert (Hlast :
    (if _with_pressure s
     then pressure <- _compensate_pressure pres_raw ;;
          modify (after_pressure pressure)
     else ret tt) s3 t_a
    = (Ret tt, if _with_pressure s then after_pressure P s3 else s3, t_a)).
  { destruct (_with_pressure s); [|reflexivity].
    erewrite bind_run by (apply Hpres; reflexivity). reflexivity. }
  assert (Hrun :
    update bus fuel first_reading s t
    = (Ret tt, if _with_pressure s then after_pressure P s3 else s3, t_a)).
  { unfold update. erewrite bind_run by exact Hacq.
    unfold compensate. rewrite Hraw.
    erewrite bind_run by reflexivity.
    cbv beta iota.
    erewrite bind_run by reflexivity.
    erewrite bind_run by exact Htemp.
    erewrite bind_run by reflexivity.
    erewrite bind_run by reflexivity.
    fold s2. rewrite Hwh2, Hwp2.
    erewrite bind_run by exact Hstep.
    exact Hlast. }
  eexists. split; [exact Hrun|].
  unfold s3, s2, after_pressure, after_humidity, after_temperature.
  rewrite Hs1.
  destruct (_with_pressure s), (_with_humidity s),
    (temperature_accepted T), (humidity_accepted H), (pressure_accepted P);
    cbn; repeat split; assumption.
Qed.

End BME280_Update.

(* ================================================================== *)
(** * BME280: the range checks *)
(* ================================================================== *)

(** C3, as stated, fails at its first boundary.  A sensor whose compensated
    temperature is exactly -20 has that temperature accepted: it is stored
    and the sample is valid. *)
Lemma bme280_minus_20_is_accepted :
  let r := Examples.bme280_reading (-20) in
  Examples.outcome_of r = Ret tt
  /\ BME280.temperature (Examples.state_of r) = Some (Float (-20))
  /\ BME280.sample_ok (Examples.state_of r) = true.
Proof. vm_compute. repeat split. Qed.

(** C3, amended.  In an update that got its eight bytes and whose
    compensations returned [T], [H] and [P], the temperature is accepted
    exactly when -20 <= T < 80.  An accepted temperature is stored and the
    sample is valid if the humidity and pressure checks of the enabled
    channels pass as well; a rejected one leaves the stored temperature as
    it was and the sample invalid.  At the boundaries: -20 is accepted,
    -19.999 is accepted, 80 is rejected, 79.999 is accepted. *)
Theorem bme280_temperature_range_check :
  forall (bus : SMBus) (fuel : nat) (first_reading : bool)
         (s : BME280.state) (t : list event) (data : list Z)
         (s_a : BME280.state) (t_a : list event)
         (pres_raw temp_raw hum_raw : Z)
         (T : float) (s1 : BME280.state) (H P : num),
    BME280.acquire bus fuel first_reading s t = (Ret (Some data), s_a, t_a) ->
    BME280.raw_values data = Some (pres_raw, temp_raw, hum_raw) ->
    BME280._compensate_temperature temp_raw (BME280.set_ok false s_a) t_a
    = (Ret T, s1, t_a) ->
    let s2 := BME280.after_temperature T s1 in
    (BME280._with_humidity s = true ->
     BME280._compensate_humidity hum_raw s2 t_a = (Ret H, s2, t_a)) ->
    let s3 := if BME280._with_humidity s
              then BME280.after_humidity H s2 else s2 in
    (BME280._with_pressure s = true ->
     BME280._compensate_pressure pres_raw s3 t_a = (Ret P, s3, t_a)) ->
    exists s',
      BME280.update bus fuel first_reading s t = (Ret tt, s', t_a)
      /\ BME280.temperature_accepted T = ((-20 <=? T) && (T <? 80))%float
      /\ (BME280.temperature_accepted T = true ->
          BME280.temperature s' = Some (Float T)
          /\ BME280.sample_ok s'
             = (negb (BME280._with_humidity s) || BME280.humidity_accepted H)
               && (negb (BME280._with_pressure s)
                   || BME280.pressure_accepted P))
      /\ (BME280.temperature_accepted T = false ->
          BME280.temperature s' = BME280.temperature s
          /\ BME280.sample_ok s' = false)
      /\ (let at_ T := Examples.state_of (Examples.bme280_reading T) in
          BME280.temperature (at_ (-20)%float) = Some (Float (-20))
          /\ BME280.sample_ok (at_ (-20)%float) = true
          /\ BME280.temperature (at_ (-19.999)%float) = Some (Float (-19.999))
          /\ BME280.sample_ok (at_ (-19.999)%float) = true
          /\ BME280.temperature (at_ 80%float) = None
          /\ BME280.sample_ok (at_ 80%float) = false
          /\ BME280.temperature (at_ 79.999%float) = Some (Float 79.999)
          /\ BME280.sample_ok (at_ 79.999%float) = true).
Proof.
  intros bus fuel first_reading s t data s_a t_a pres_raw temp_raw hum_raw
    T s1 H P Hacq Hraw Htemp s2 Hhum s3 Hpres.
  destruct (update_outcome bus fuel first_reading s t Hacq Hraw Htemp Hhum Hpres)
    as (s' & Hrun & Ht & _ & _ & Hok).
  exists s'. split; [exact Hrun|].
  split; [reflexivity|].
  unfold BME280.temperature, BME280.sample_ok.
  split; [|split].
  - intros Hacc. rewrite Hacc in Ht, Hok. split; assumption.
  - intros Hrej. rewrite Hrej in Ht, Hok. split; assumption.
  - vm_compute. repeat split.
Qed.

Lemma bme280_temperature_range_check_witness :
  exists s' t',
    BME280.update Examples.warming_bus 0 true
      (BME280.fresh BME280.DEFAULT_I2C_ADDRESS 1 0 0
         BME280.DEFAULT_OPERATION_MODE BME280.DEFAULT_T_STANDBY
         BME280.DEFAULT_FILTER_MODE BME280.DEFAULT_DELTA_TEMP 0 false) []
    = (Ret tt, s', t')
    /\ BME280.temperature s' = Some (Float 21.5)
    /\ BME280.sample_ok s' = true.
Proof.
  pose (s := BME280.fresh BME280.DEFAULT_I2C_ADDRESS 1 0 0
               BME280.DEFAULT_OPERATION_MODE BME280.DEFAULT_T_STANDBY
               BME280.DEFAULT_FILTER_MODE BME280.DEFAULT_DELTA_TEMP 0 false).
  pose (ra := BME280.acquire Examples.warming_bus 0 true s []).
  pose (rt := BME280._compensate_temperature 110080
                (BME280.set_ok false (Examples.state_of ra))
                (Examples.trace_of ra)).
  destruct (@bme280_temperature_range_check Examples.warming_bus 0%nat true
              s [] [0; 0; 0; 0x1A; 0xE0; 0; 0; 0]
              (Examples.state_of ra) (Examples.trace_of ra)
              0 110080 0 21.5%float (Examples.state_of rt) (Int 0) (Int 0))
    as (s' & Hrun & _ & Hacc & _).
  - vm_compute. reflexivity.
  - vm_compute. reflexivity.
  - vm_compute. reflexivity.
  - intros Hh. vm_compute in Hh. discriminate.
  - intros Hp. vm_compute in Hp. discriminate.
  - exists s', (Examples.trace_of ra). split; [exact Hrun|].
    destruct Hacc as [Ht Hok]; [vm_compute; reflexivity|].
    split; [exact Ht|]. rewrite Hok. vm_compute. reflexivity.
Defined.

(** C9.  In an update that got its eight bytes and whose compensations
    returned [T], [H] and [P]: a temperature that fails its check leaves
    the stored temperature as it was; on an enabled humidity channel, a
    humidity that fails its check leaves the stored humidity as it was; on
    an enabled pressure channel, a pressure that fails its check leaves the
    stored pressure as it was; and in each case the sample is invalid. *)
Theorem bme280_rejected_values_are_not_stored :
  forall (bus : SMBus) (fuel : nat) (first_reading : bool)
         (s : BME280.state) (t : list event) (data : list Z)
         (s_a : BME280.state) (t_a : list event)
         (pres_raw temp_raw hum_raw : Z)
         (T : float) (s1 : BME280.state) (H P : num),
    BME280.acquire bus fuel first_reading s t = (Ret (Some data), s_a, t_a) ->
    BME280.raw_values data = Some (pres_raw, temp_raw, hum_raw) ->
    BME280._compensate_temperature temp_raw (BME280.set_ok false s_a) t_a
    = (Ret T, s1, t_a) ->
    let s2 := BME280.after_temperature T s1 in
    (BME280._with_humidity s = true ->
     BME280._compensate_humidity hum_raw s2 t_a = (Ret H, s2, t_a)) ->
    let s3 := if BME280._with_humidity s
              then BME280.after_humidity H s2 else s2 in
    (BME280._with_pressure s = true ->
     BME280._compensate_pressure pres_raw s3 t_a = (Ret P, s3, t_a)) ->
    exists s',
      BME280.update bus fuel first_reading s t = (Ret tt, s', t_a)
      /\ (BME280.temperature_accepted T = false ->
          BME280.temperature s' = BME280.temperature s
          /\ BME280.sample_ok s' = false)
      /\ (BME280._with_humidity s = true ->
          BME280.humidity_accepted H = false ->
          BME280.humidity s' = BME280.humidity s
          /\ BME280.sample_ok s' = false)
      /\ (BME280._with_pressure s = true ->
          BME280.pressure_accepted P = false ->
          BME280.pressure s' = BME280.pressure s
          /\ BME280.sample_ok s' = false).
Proof.
  intros bus fuel first_reading s t data s_a t_a pres_raw temp_raw hum_raw
    T s1 H P Hacq Hraw Htemp s2 Hhum s3 Hpres.
  destruct (update_outcome bus fuel first_reading s t Hacq Hraw Htemp Hhum Hpres)
    as (s' & Hrun & Ht & Hh & Hp & Hok).
  exists s'. split; [exact Hrun|].
  unfold BME280.temperature, BME280.humidity, BME280.pressure, BME280.sample_ok.
  split; [|split].
  - intros Hrej. rewrite Hrej in Ht, Hok. split; assumption.
  - intros Hon Hrej. rewrite Hon, Hrej in Hh, Hok. split; [exact Hh|].
    rewrite Hok. destruct (BME280.temperature_accepted T); reflexivity.
  - intros Hon Hrej. rewrite Hon, Hrej in Hp, Hok. split; [exact Hp|].
    rewrite Hok. cbn [negb orb]. apply andb_false_r.
Qed.

Lemma bme280_rejected_values_are_not_stored_witness :
  exists s' t',
    BME280.update Examples.warming_bus 0 false
      (Examples.state_of Examples.bme280_warming)
      (Examples.trace_of Examples.bme280_warming)
    = (Ret tt, s', t')
    /\ BME280.temperature (Examples.state_of Examples.bme280_warming)
       = Some (Float 21.5)
    /\ BME280.temperature s' = Some (Float 21.5)
    /\ BME280.sample_ok s' = false.
Proof.
  pose (s := Examples.state_of Examples.bme280_warming).
  pose (t := Examples.trace_of Examples.bme280_warming).
  pose (ra := BME280.acquire Examples.warming_bus 0 false s t).
  pose (rt := BME280._compensate_temperature 512000
                (BME280.set_ok false (Examples.state_of ra))
                (Examples.trace_of ra)).
  destruct (@bme280_rejected_values_are_not_stored Examples.warming_bus 0%nat
              false s t [0; 0; 0; 0x7D; 0; 0; 0; 0]
              (Examples.state_of ra) (Examples.trace_of ra)
              0 512000 0 100%float (Examples.state_of rt) (Int 0) (Int 0))
    as (s' & Hrun & Hrej & _).
  - vm_compute. reflexivity.
  - vm_compute. reflexivity.
  - vm_compute. reflexivity.
  - intros Hh. vm_compute in Hh. discriminate.
  - intros Hp. vm_compute in Hp. discriminate.
  - exists s', (Examples.trace_of ra). split; [exact Hrun|].
    split; [vm_compute; reflexivity|].
    destruct Hrej as [Ht Hok]; [vm_compute; reflexivity|].
    split; [|exact Hok]. rewrite Ht. vm_compute. reflexivity.
Defined.

(* ================================================================== *)
(** * BME280: errors during [update] *)
(* ================================================================== *)

Ltac catches_step :=
  cbv zeta;
  first
    [ apply catches_ret | apply catches_get | apply catches_modify
    | apply catches_emit | apply catches_report | apply catches_indexed
    | apply catches_unwrap | apply catches_getitem
    | apply catches_try_except
    | apply catches_bind; [|intros ?]
    | match goal with
      | |- catches (if ?b then _ else _) => destruct b
      | |- catches (let '(_, _) := ?x in _) => destruct x
      end ].

(** No [OSError] leaves [update]: the bus part is inside the [try], and the
    compensation makes no bus call. *)
Lemma bme280_update_catches_oserror (bus : SMBus) (fuel : nat)
    (first_reading : bool) :
  catches (BME280.update bus fuel first_reading).
Proof.
  unfold BME280.update. apply catches_bind.
  - unfold BME280.acquire. apply catches_bind; [apply catches_get|].
    intros s. apply catches_try_except. repeat catches_step.
  - intros [data|]; [|apply catches_ret].
    unfold BME280.compensate, BME280._compensate_temperature,
      BME280._compensate_humidity, BME280._compensate_pressure.
    repeat catches_step.
Qed.

(** C1, the failing run.  On a bus whose read of the first calibration
    register raises while every other call succeeds, the calibration method
    catches the error itself and returns with the tables unset; [update]
    goes on, reads the eight data bytes and calls the temperature
    compensation on the missing table: a [TypeError] leaves [update].  This
    happens in the [update] of the constructor, and in a later [update] of
    an object whose constructor met a bus failure before. *)
Theorem bme280_update_raises_on_unset_calibration :
  let built := Examples.bme280_default Examples.no_calibration_bus in
  Examples.outcome_of built = Raise TypeError
  /\ BME280._calibration_t (Examples.state_of built) = None
  /\ quiet (Examples.trace_of built)
     = [EWriteByteData 0x76 0xF2 1; EWriteByteData 0x76 0xF5 0xA0;
        EWriteByteData 0x76 0xF4 0x27; EReadByteData 0x76 0x88;
        EReadByteData 0x76 0xF7; EReadByteData 0x76 0xF8;
        EReadByteData 0x76 0xF9; EReadByteData 0x76 0xFA;
        EReadByteData 0x76 0xFB; EReadByteData 0x76 0xFC;
        EReadByteData 0x76 0xFD; EReadByteData 0x76 0xFE]
  /\ Examples.outcome_of Examples.bme280_late = Ret tt
  /\ BME280.sample_ok (Examples.state_of Examples.bme280_late) = false
  /\ Examples.outcome_of Examples.bme280_late_update = Raise TypeError.
Proof. vm_compute. repeat split. Qed.

(* ================================================================== *)
(** * BME280: the calibration table *)
(* ================================================================== *)

Section BME280_Calibration.

Import BME280.

(** On a 16-bit value with its top bit set, [(-v ^ 0xFFFF) + 1] is the
    value read as a signed 16-bit number. *)
Lemma twos_complement_spec (v : Z) :
  0x8000 <= v <= 0xFFFF -> twos_complement v = v - 65536.
Proof.
  intros Hv. unfold twos_complement.
  replace (- v) with (Z.lnot (v - 1)) by (unfold Z.lnot; lia).
  rewrite <- Z.lnot_lxor_l.
  assert (Hlog : Z.log2 (v - 1) < 16) by (apply Z.log2_lt_pow2; lia).
  assert (Hx : Z.lxor (v - 1) 65535 = 65535 - (v - 1)).
  { change 65535 with (Z.ones 16).
    rewrite <- Z.ldiff_ones_l_low by lia.
    symmetry. apply Z.sub_nocarry_ldiff.
    apply Z.ldiff_ones_r_low; lia. }
  rewrite Hx. unfold Z.lnot. lia.
Qed.

Lemma signed16_spec (v : Z) :
  0 <= v <= 0xFFFF ->
  signed16 v = if v <? 0x8000 then v else v - 65536.
Proof.
  intros Hv. unfold signed16.
  assert (Hbit : (Z.land v 0x8000 =? 0) = negb (Z.testbit v 15)).
  { apply (land_bit_eqb v (k := 15)). lia. }
  rewrite Hbit.
  destruct (Z.ltb_spec v 0x8000).
  - assert (Hb : Z.testbit v 15 = false).
    { destruct (Z.eq_dec v 0) as [->|]; [apply Z.bits_0|].
      apply Z.bits_above_log2; [lia|].
      assert (Z.log2 v < 15) by (apply Z.log2_lt_pow2; lia). lia. }
    rewrite Hb. reflexivity.
  - assert (Hb : Z.testbit v 15 = true).
    { rewrite Z.testbit_true by lia.
      change (2 ^ 15) with 32768.
      assert (Hq : v / 32768 = 1).
      { symmetry. apply (Z.div_unique v 32768 1 (v - 32768)); lia. }
      rewrite Hq. reflexivity. }
    rewrite Hb. cbn [negb]. apply twos_complement_spec. lia.
Qed.

(** The three sign loops, entry by entry: the temperature loop converts the
    second entry only, the pressure loop the second to the eighth, the
    humidity loop all six. *)
Lemma sign_extend_t (t1 t2 t3 : Z) :
  sign_extend 1 1 [t1; t2; t3] = Some [t1; signed16 t2; t3].
Proof.
  unfold sign_extend, sign_extend_at, signed16. cbn.
  destruct (Z.land t2 32768 =? 0); reflexivity.
Qed.

Lemma sign_extend_p (p1 p2 p3 p4 p5 p6 p7 p8 p9 : Z) :
  sign_extend 1 7 [p1; p2; p3; p4; p5; p6; p7; p8; p9]
  = Some [p1; signed16 p2; signed16 p3; signed16 p4; signed16 p5;
          signed16 p6; signed16 p7; signed16 p8; p9].
Proof.
  unfold sign_extend, sign_extend_at, signed16. cbn.
  destruct (Z.land p2 32768 =? 0); cbn;
  destruct (Z.land p3 32768 =? 0); cbn;
  destruct (Z.land p4 32768 =? 0); cbn;
  destruct (Z.land p5 32768 =? 0); cbn;
  destruct (Z.land p6 32768 =? 0); cbn;
  destruct (Z.land p7 32768 =? 0); cbn;
  destruct (Z.land p8 32768 =? 0); reflexivity.
Qed.

Lemma sign_extend_h (h1 h2 h3 h4 h5 h6 : Z) :
  sign_extend 0 6 [h1; h2; h3; h4; h5; h6]
  = Some [signed16 h1; signed16 h2; signed16 h3;
          signed16 h4; signed16 h5; signed16 h6].
Proof.
  unfold sign_extend, sign_extend_at, signed16. cbn.
  destruct (Z.land h1 32768 =? 0); cbn;
  destruct (Z.land h2 32768 =? 0); cbn;
  destruct (Z.land h3 32768 =? 0); cbn;
  destruct (Z.land h4 32768 =? 0); cbn;
  destruct (Z.land h5 32768 =? 0); cbn;
  destruct (Z.land h6 32768 =? 0); reflexivity.
Qed.

End BME280_Calibration.

(** C2, the failing run.  The conversion itself is right: 0x8001 becomes
    -32767, 0x7FFF and 0 stay.  But with dig_T2, dig_T3 and dig_P9 all read
    as 0x8001, only dig_T2 comes out as -32767: dig_T3 and dig_P9, both
    signed in the datasheet, are stored as 32769, because the temperature
    loop stops after index 1 and the pressure loop after index 7. *)
Theorem bme280_dig_T3_and_dig_P9_are_not_sign_extended :
  let built := Examples.bme280_default Examples.negative_coefficients_bus in
  BME280.signed16 0x8001 = -32767
  /\ BME280.signed16 0x7FFF = 32767
  /\ BME280.signed16 0 = 0
  /\ Examples.outcome_of built = Ret tt
  /\ BME280._calibration_t (Examples.state_of built)
     = Some [0; -32767; 32769]
  /\ BME280._calibration_p (Examples.state_of built)
     = Some [0; 0; 0; 0; 0; 0; 0; 0; 32769]
  /\ BME280._calibration_h (Examples.state_of built)
     = Some [0; 0; 0; 0; 0; 0].
Proof. vm_compute. repeat split. Qed.

(* ================================================================== *)
(** * BH1750: sensitivity and validity *)
(* ================================================================== *)

Section BH1750_Sensitivity.

Import BH1750.

Variable bus : SMBus.

Lemma set_sensitivity_trace (sensitivity : Z) (s : state) (t : list event) :
  exists s' new,
    set_sensitivity bus sensitivity s t = (Ret tt, s', t ++ new)
    /\ quiet new
       = [EWriteByte (_i2c_add s) POWER_ON;
          EWriteByte (_i2c_add s) (Z.lor 0x40 (Z.shiftr (clamp sensitivity) 5));
          EWriteByte (_i2c_add s) (Z.lor 0x60 (Z.land (clamp sensitivity) 0x1f));
          EWriteByte (_i2c_add s) POWER_DOWN]
    /\ _mtreg s' = Some (clamp sensitivity)
    /\ _mode s' = Some POWER_DOWN
    /\ _light_level s' = _light_level s
    /\ (_i2c_add s', _logger s', _delay s', _operation_mode s',
        _continuous_sampling s', _high_res s', _low_res s')
       = (_i2c_add s, _logger s, _delay s, _operation_mode s,
          _continuous_sampling s, _high_res s, _low_res s).
Proof.
  unfold set_sensitivity, _power_on, _power_down.
  set (s1 := set_mtreg (clamp sensitivity) s).
  assert (H1 : (if sensitivity <? 31 then modify (set_mtreg 31)
                else if 254 <? sensitivity then modify (set_mtreg 254)
                else modify (set_mtreg sensitivity)) s t = (Ret tt, s1, t)).
  { unfold s1, clamp. destruct (sensitivity <? 31); [reflexivity|].
    destruct (254 <? sensitivity); reflexivity. }
  erewrite bind_run by exact H1.
  erewrite bind_run by apply set_mode_run.
  erewrite bind_run by reflexivity.
  cbn [_mtreg set_ok set_mode s1 set_mtreg unwrap].
  erewrite bind_run by reflexivity.
  erewrite bind_run by apply set_mode_run.
  erewrite bind_run by apply set_mode_run.
  rewrite set_mode_run.
  cbn [_i2c_add _logger set_ok set_mode s1 set_mtreg].
  rewrite <- !app_assoc. cbn [app].
  eexists _, _. split; [reflexivity|].
  split; [quiet_norm; reflexivity|].
  repeat split.
Qed.

(** The two opcodes carry the sensitivity: its three high bits in the
    first, its five low bits in the second. *)
Lemma mtreg_opcodes (m : Z) :
  31 <= m <= 254 ->
  let hi := Z.lor 0x40 (Z.shiftr m 5) in
  let lo := Z.lor 0x60 (Z.land m 0x1f) in
  0x40 <= hi <= 0x47 /\ 0x60 <= lo <= 0x7F
  /\ Z.lor (Z.shiftl (Z.land hi 0x07) 5) (Z.land lo 0x1F) = m.
Proof.
  intros Hm.
  assert (H : forall k, 31 <= k < 31 + Z.of_nat 224 ->
    (fun m =>
       let hi := Z.lor 0x40 (Z.shiftr m 5) in
       let lo := Z.lor 0x60 (Z.land m 0x1f) in
       (0x40 <=? hi) && (hi <=? 0x47) && (0x60 <=? lo) && (lo <=? 0x7F)
       && (Z.lor (Z.shiftl (Z.land hi 0x07) 5) (Z.land lo 0x1F) =? m)) k = true).
  { apply range_forallb. vm_compute. reflexivity. }
  specialize (H m ltac:(cbn; lia)). cbv beta zeta in H.
  rewrite !andb_true_iff in H. cbv zeta. lia.
Qed.

(** One call of [update] in a one-time mode, told up to its closing
    power-down write. *)
Lemma update_one_time_run (s : state) (t : list event) (m : Z) :
  _mtreg s = Some m -> 31 <= m <= 254 ->
  _continuous_sampling s = false ->
  exists s' pre mid,
    let t_read := t ++ pre in
    let t_down := t_read ++ EReadWordData (_i2c_add s) (_operation_mode s) :: mid in
    let down := write_byte bus t_down (_i2c_add s) POWER_DOWN in
    update bus s t
    = (Ret tt, s',
       t_down ++ EWriteByte (_i2c_add s) POWER_DOWN
         :: complaint (_logger s) (nacked down) "error" "Bad writing in bus: %s")
    /\ quiet mid = []
    /\ _ok s' = negb (nacked down)
    /\ _light_level s'
       = match read_word_data bus t_read (_i2c_add s) (_operation_mode s) with
         | Some data => Float (lux (_high_res s) m data)
         | None => Int (-1)
         end.
Proof.
  intros Hm Hr Hc. unfold update.
  erewrite bind_run by reflexivity.
  assert (Hn : needs_rearm s = true).
  { unfold needs_rearm. rewrite Hc. reflexivity. }
  rewrite Hn.
  set (a := _i2c_add s).
  set (f1 := nacked (write_byte bus t a POWER_ON)).
  set (c1 := complaint (_logger s) f1 "error" "Bad writing in bus: %s").
  set (t1 := t ++ EWriteByte a POWER_ON :: c1).
  set (f2 := nacked (write_byte bus t1 a RESET)).
  set (c2 := complaint (_logger s) f2 "error" "Bad writing in bus: %s").
  set (t2 := t1 ++ EWriteByte a RESET :: c2).
  set (f3 := nacked (write_byte bus t2 a (_operation_mode s))).
  set (c3 := complaint (_logger s) f3 "error" "Bad writing in bus: %s").
  set (t3 := t2 ++ EWriteByte a (_operation_mode s) :: c3).
  set (w := ESleep (wait_time (_low_res s) m (_delay s))).
  set (s3 := set_ok (negb f3) (set_mode (_operation_mode s)
               (set_ok (negb f2) (set_mode RESET
                  (set_ok (negb f1) (set_mode POWER_ON s)))))).
  set (pre := EWriteByte a POWER_ON :: c1 ++ EWriteByte a RESET :: c2
                ++ EWriteByte a (_operation_mode s) :: c3 ++ [w]).
  assert (Ht : t3 ++ [w] = t ++ pre).
  { unfold pre, t3, t2, t1. rewrite <- !app_assoc. reflexivity. }
  assert (Hpre :
    (_reset bus ;; _set_mode bus (_operation_mode s) ;; _wait_for_result) s t
    = (Ret tt, s3, t ++ pre)).
  { unfold _reset, _power_on, _wait_for_result.
    erewrite bind_run;
      [|erewrite bind_run; [|apply set_mode_run]; apply set_mode_run].
    erewrite bind_run; [|apply set_mode_run].
    cbn [_i2c_add _logger set_ok set_mode].
    fold a f1 c1 t1 f2 c2 t2 f3 c3 t3 s3.
    erewrite bind_run by reflexivity.
    unfold unwrap. change (_mtreg s3) with (_mtreg s). rewrite Hm.
    erewrite bind_run by reflexivity.
    unfold sleep, emit. rewrite <- Ht. reflexivity. }
  erewrite bind_run; [|exact Hpre].
  assert (Hmd : _mode s3 = Some (_operation_mode s)) by reflexivity.
  erewrite bind_run;
    [|apply (@get_result_run bus s3 (t ++ pre) _ m Hmd Hm Hr)].
  erewrite bind_run by reflexivity.
  change (_i2c_add s3) with a. change (_logger s3) with (_logger s).
  change (_high_res s3) with (_high_res s).
  rewrite Hc. cbn [negb].
  unfold _power_down. rewrite set_mode_run.
  cbn [_i2c_add _logger set_ok set_light_level set_mode].
  change (_i2c_add s3) with a. change (_logger s3) with (_logger s).
  eexists _, pre, _. cbv zeta. split; [reflexivity|].
  split; [apply quiet_complaint|].
  split; reflexivity.
Qed.

End BH1750_Sensitivity.

(** X1.  [set_sensitivity] stores the requested sensitivity clamped to
    [31, 254] and leaves the device powered down; between a power-on and a
    power-down it writes two opcodes, 0x40..0x47 and 0x60..0x7F, whose low
    bits put together give the stored sensitivity back. *)
Theorem bh1750_set_sensitivity_clamps_and_encodes :
  forall (bus : SMBus) (sensitivity : Z) (s : BH1750.state) (t : list event),
  exists s' new m hi lo,
    BH1750.set_sensitivity bus sensitivity s t = (Ret tt, s', t ++ new)
    /\ BH1750.sensitivity s' = Some m
    /\ 31 <= m <= 254
    /\ (31 <= sensitivity <= 254 -> m = sensitivity)
    /\ (sensitivity < 31 -> m = 31)
    /\ (254 < sensitivity -> m = 254)
    /\ quiet new
       = [EWriteByte (BH1750._i2c_add s) BH1750.POWER_ON;
          EWriteByte (BH1750._i2c_add s) hi;
          EWriteByte (BH1750._i2c_add s) lo;
          EWriteByte (BH1750._i2c_add s) BH1750.POWER_DOWN]
    /\ 0x40 <= hi <= 0x47
    /\ 0x60 <= lo <= 0x7F
    /\ Z.lor (Z.shiftl (Z.land hi 0x07) 5) (Z.land lo 0x1F) = m
    /\ BH1750._mode s' = Some BH1750.POWER_DOWN
    /\ BH1750._light_level s' = BH1750._light_level s.
Proof.
  intros bus sensitivity s t.
  destruct (set_sensitivity_trace bus sensitivity s t)
    as (s' & new & Hrun & Hq & Hm & Hmd & Hl & _).
  pose proof (clamp_range sensitivity) as Hr.
  destruct (mtreg_opcodes Hr) as (Hhi & Hlo & Hdec).
  exists s', new, (BH1750.clamp sensitivity),
    (Z.lor 0x40 (Z.shiftr (BH1750.clamp sensitivity) 5)),
    (Z.lor 0x60 (Z.land (BH1750.clamp sensitivity) 0x1f)).
  split; [exact Hrun|]. split; [exact Hm|]. split; [exact Hr|].
  split; [|split; [|split]].
  - unfold BH1750.clamp. intros H.
    destruct (Z.ltb_spec sensitivity 31), (Z.ltb_spec 254 sensitivity); lia.
  - unfold BH1750.clamp. intros H.
    destruct (Z.ltb_spec sensitivity 31); lia.
  - unfold BH1750.clamp. intros H.
    destruct (Z.ltb_spec sensitivity 31), (Z.ltb_spec 254 sensitivity); lia.
  - split; [exact Hq|]. repeat split; try assumption; lia.
Qed.

(** X2.  Whatever the mode and the stored light level, the update that
    follows [set_sensitivity] goes through power on, reset and arming again,
    and waits for the time of the new sensitivity. *)
Theorem bh1750_update_after_set_sensitivity_rearms :
  forall (bus : SMBus) (sensitivity : Z) (s : BH1750.state) (t : list event),
    BH1750._operation_mode s <> BH1750.POWER_DOWN ->
    let a := BH1750._i2c_add s in
    let op := BH1750._operation_mode s in
    exists s1 t1 s2 pre post,
      BH1750.set_sensitivity bus sensitivity s t = (Ret tt, s1, t1)
      /\ BH1750.update bus s1 t1
         = (Ret tt, s2, t1 ++ pre ++ EReadWordData a op :: post)
      /\ quiet pre
         = [EWriteByte a BH1750.POWER_ON;
            EWriteByte a BH1750.RESET;
            EWriteByte a op;
            ESleep (BH1750.wait_time (BH1750._low_res s)
                      (BH1750.clamp sensitivity) (BH1750._delay s))].
Proof.
  intros bus sensitivity s t Hop a op.
  destruct (set_sensitivity_trace bus sensitivity s t)
    as (s1 & new & Hrun & _ & Hm & Hmd & _ & Hcfg).
  injection Hcfg as Ha Hlg Hd Hop1 Hc Hh Hlo.
  destruct (update_run bus s1 (t ++ new) Hm (clamp_range sensitivity))
    as (s2 & pre & post & Hup & Hpre & _).
  assert (Hn : BH1750.needs_rearm s1 = true).
  { apply needs_rearm_true. right. right. rewrite Hmd, Hop1.
    intros Heq. injection Heq as Heq. apply Hop. symmetry. exact Heq. }
  rewrite Hn, Ha, Hop1, Hlo, Hd in Hpre. rewrite Ha, Hop1 in Hup.
  exists s1, (t ++ new), s2, pre, post.
  split; [exact Hrun|]. split; [exact Hup|exact Hpre].
Qed.

Lemma bh1750_update_after_set_sensitivity_rearms_witness :
  exists s1 t1 s2 pre post,
    BH1750.set_sensitivity (BH1750.flaky_bus 0x7800) 200
      (Examples.state_of Examples.bh1750_flaky_start)
      (Examples.trace_of Examples.bh1750_flaky_start)
    = (Ret tt, s1, t1)
    /\ BH1750.update (BH1750.flaky_bus 0x7800) s1 t1
       = (Ret tt, s2, t1 ++ pre ++ EReadWordData 0x23 0x10 :: post)
    /\ quiet pre
       = [EWriteByte 0x23 BH1750.POWER_ON;
          EWriteByte 0x23 BH1750.RESET;
          EWriteByte 0x23 0x10;
          ESleep (BH1750.wait_time false 200 0.12)].
Proof.
  destruct (@bh1750_update_after_set_sensitivity_rearms
              (BH1750.flaky_bus 0x7800) 200
              (Examples.state_of Examples.bh1750_flaky_start)
              (Examples.trace_of Examples.bh1750_flaky_start))
    as (s1 & t1 & s2 & pre & post & H1 & H2 & H3).
  - vm_compute. discriminate.
  - exists s1, t1, s2, pre, post.
    split; [exact H1|]. split; [exact H2|]. exact H3.
Defined.

(** X3.  What [sample_ok] says after an update depends on the mode.  In a
    continuous mode it is true exactly when the word read returned, whether
    or not the writes before it were acknowledged.  In a one-time mode it is
    true exactly when the closing power-down write was acknowledged, whether
    or not the read returned: a failed read followed by an acknowledged
    power-down leaves [sample_ok] true with the light level at -1. *)
Theorem bh1750_sample_ok_after_update :
  forall (bus : SMBus) (s : BH1750.state) (t : list event) (m : Z),
    BH1750._mtreg s = Some m -> 31 <= m <= 254 ->
    let a := BH1750._i2c_add s in
    let op := BH1750._operation_mode s in
    exists s' pre post,
      BH1750.update bus s t
      = (Ret tt, s', t ++ pre ++ EReadWordData a op :: post)
      /\ (BH1750._continuous_sampling s = true ->
          BH1750.sample_ok s'
          = negb (nacked (read_word_data bus (t ++ pre) a op)))
      /\ (BH1750._continuous_sampling s = false ->
          exists mid rest,
            post = mid ++ EWriteByte a BH1750.POWER_DOWN :: rest
            /\ quiet mid = []
            /\ let t_down := (t ++ pre) ++ EReadWordData a op :: mid in
               BH1750.sample_ok s'
               = negb (nacked (write_byte bus t_down a BH1750.POWER_DOWN))
               /\ (read_word_data bus (t ++ pre) a op = None ->
                   write_byte bus t_down a BH1750.POWER_DOWN = Some tt ->
                   BH1750.sample_ok s' = true
                   /\ BH1750._light_level s' = Int (-1))).
Proof.
  intros bus s t m Hm Hr a op.
  destruct (BH1750._continuous_sampling s) eqn:Hc.
  - destruct (update_run bus s t Hm Hr)
      as (s' & pre & post & Hrun & _ & _ & _ & _ & _ & _ & Hok).
    exists s', pre, post. split; [exact Hrun|].
    split; [intros _; apply Hok; exact Hc|discriminate].
  - destruct (update_one_time_run bus s t Hm Hr Hc)
      as (s' & pre & mid & Hrun & Hmid & Hok & Hl).
    cbv zeta in Hrun, Hok, Hl.
    eexists s', pre, _. split.
    { rewrite Hrun. rewrite <- !app_assoc. cbn [app]. reflexivity. }
    split; [discriminate|].
    intros _. eexists mid, _. split; [reflexivity|].
    split; [exact Hmid|]. cbv zeta. split; [exact Hok|].
    intros Hread Hdown. unfold BH1750.sample_ok.
    rewrite Hok, Hl. fold a op. rewrite Hread, Hdown. split; reflexivity.
Qed.

Lemma bh1750_sample_ok_after_update_witness :
  exists s' t',
    BH1750.init Examples.deaf_bus BH1750.DEFAULT_I2C_ADDRESS
                BH1750.ONE_TIME_HIGH_RES_MODE_1
                BH1750.DEFAULT_DELAY_MS BH1750.DEFAULT_SENSITIVITY false
                BH1750.blank []
    = (Ret tt, s', t')
    /\ BH1750.sample_ok s' = true
    /\ BH1750._light_level s' = Int (-1).
Proof.
  set (bus := Examples.deaf_bus).
  destruct (init_run bus BH1750.DEFAULT_I2C_ADDRESS
              BH1750.ONE_TIME_HIGH_RES_MODE_1 BH1750.DEFAULT_DELAY_MS
              BH1750.DEFAULT_SENSITIVITY false BH1750.blank [])
    as (s0 & t0 & Hinit & Hm & _ & _ & _ & _ & _ & Hc & _).
  destruct (@bh1750_sample_ok_after_update bus s0 t0 69)
    as (s' & pre & post & Hrun & _ & Hone).
  - exact Hm.
  - lia.
  - eexists s', _. split; [rewrite Hinit; exact Hrun|].
    destruct (Hone Hc) as (mid & rest & _ & _ & _ & Hfail).
    apply Hfail; reflexivity.
Defined.

(* ================================================================== *)
(** * HTU21D: validity over time *)
(* ================================================================== *)

Section HTU21D_Validity.

Import HTU21D.

Variable bus : SMBus.

Lemma stays_invalid_refl (s : state) : stays_invalid s s.
Proof. intros H. exact H. Qed.

Lemma stays_invalid_trans (a b c : state) :
  stays_invalid a b -> stays_invalid b c -> stays_invalid a c.
Proof. unfold stays_invalid. auto. Qed.

Ltac invalid_step :=
  first
    [ apply (keeps_ret _ stays_invalid_refl)
    | apply (keeps_get _ stays_invalid_refl)
    | apply (keeps_emit _ stays_invalid_refl)
    | apply (keeps_report _ stays_invalid_refl)
    | apply (keeps_call _ stays_invalid_refl)
    | apply (keeps_getitem _ stays_invalid_refl)
    | apply keeps_modify; intros ? ?; (assumption || reflexivity)
    | apply (keeps_try_except stays_invalid_trans)
    | apply (keeps_bind stays_invalid_trans); [|intros ?]
    | match goal with
      | |- keeps _ (if ?b then _ else _) => destruct b
      | |- keeps _ (match ?x with Some _ => _ | None => _ end) => destruct x
      | |- keeps _ (let '(_, _) := ?x in _) => destruct x
      end ].

(** No assignment of [update] sets the validity flag. *)
Lemma update_stays_invalid : keeps stays_invalid (update bus).
Proof.
  unfold update, read_blocks, store_blocks, _crc8check, sleep.
  repeat invalid_step.
Qed.

Lemma updates_stay_invalid (n : nat) : keeps stays_invalid (updates bus n).
Proof.
  induction n as [|n IH]; cbn [updates].
  - apply (keeps_ret _ stays_invalid_refl).
  - apply (keeps_bind stays_invalid_trans); [apply update_stays_invalid|].
    intros _. exact IH.
Qed.

(** Either the bus delivers both blocks and nothing is assigned, or
    [read_blocks] returns [None] with the validity flag down and nothing
    else assigned. *)
Lemma read_blocks_run (s : state) (t : list event) :
  (exists blocks t', read_blocks bus s t = (Ret (Some blocks), s, t'))
  \/ (exists t', read_blocks bus s t = (Ret None, set_ok false s, t')).
Proof.
  unfold read_blocks, bind, get, try_except, call, sleep, emit, modify,
    report, ret.
  destruct (write_byte bus t (_i2c_add s) CMD_READ_TEMP_NOHOLD);
    [|right; destruct (_logger s); eexists; reflexivity].
  destruct (read_i2c_block_data bus _ (_i2c_add s) CMD_READ_TEMP_HOLD 3);
    [|right; destruct (_logger s); eexists; reflexivity].
  destruct (write_byte bus _ (_i2c_add s) CMD_READ_HUM_NOHOLD);
    [|right; destruct (_logger s); eexists; reflexivity].
  destruct (read_i2c_block_data bus _ (_i2c_add s) CMD_READ_HUM_HOLD 3);
    [|right; destruct (_logger s); eexists; reflexivity].
  left. eexists _, _. reflexivity.
Qed.

(** Every block of two bytes converts to a temperature between -46.85 and
    128.87 degrees. *)
Lemma block_temperature_range (t0 t1 : Z) :
  is_byte t0 -> is_byte t1 ->
  ((-46.85 <=? block_temperature t0 t1)
   && (block_temperature t0 t1 <? 128.87))%float = true.
Proof.
  intros H0 H1.
  assert (H : forallb
    (fun a => forallb
       (fun b => ((-46.85 <=? block_temperature a b)
                  && (block_temperature a b <? 128.87))%float)
       (range 0 256))
    (range 0 256) = true) by (vm_compute; reflexivity).
  pose proof (@range_forallb _ 256 0 H t0 ltac:(unfold is_byte in H0; cbn; lia))
    as Hrow.
  cbv beta in Hrow.
  exact (@range_forallb _ 256 0 Hrow t1 ltac:(unfold is_byte in H1; cbn; lia)).
Qed.

End HTU21D_Validity.

(** X4.  No update of the HTU21D ever sets the validity flag: once it is
    down (a failed soft reset, a bus failure, a bad CRC), [sample_ok] stays
    false after any number of updates, whatever the bus then returns. *)
Theorem htu21d_validity_never_recovers :
  forall (bus : SMBus) (n : nat) (s : HTU21D.state) (t : list event)
         (o : outcome unit) (s' : HTU21D.state) (t' : list event),
    HTU21D._ok s = false ->
    HTU21D.updates bus n s t = (o, s', t') ->
    HTU21D._ok s' = false /\ HTU21D.sample_ok s' = false.
Proof.
  intros bus n s t o s' t' Hok Hrun.
  assert (H : HTU21D._ok s' = false).
  { exact (updates_stay_invalid bus n s t Hrun Hok). }
  split; [exact H|]. unfold HTU21D.sample_ok. rewrite H. reflexivity.
Qed.

Lemma htu21d_validity_never_recovers_witness :
  HTU21D.sample_ok
    (Examples.state_of
       (HTU21D.updates
          (Examples.htu21d_bus [0x68; 0x3A; 0x7C] [0x4E; 0x85; 0x6B]) 3
          HTU21D.blank []))
  = false.
Proof.
  pose (r := HTU21D.updates
               (Examples.htu21d_bus [0x68; 0x3A; 0x7C] [0x4E; 0x85; 0x6B]) 3
               HTU21D.blank []).
  apply (@htu21d_validity_never_recovers
           (Examples.htu21d_bus [0x68; 0x3A; 0x7C] [0x4E; 0x85; 0x6B]) 3
           HTU21D.blank [] (Examples.outcome_of r) (Examples.state_of r)
           (Examples.trace_of r)).
  - reflexivity.
  - vm_compute. reflexivity.
Defined.

(** X5.  When the soft reset of the constructor is not acknowledged, the
    constructor makes no other bus call and takes no measurement: the
    temperature and the humidity keep their sentinel -255, and [sample_ok]
    is false then and after any number of later updates. *)
Theorem htu21d_failed_soft_reset :
  forall (bus : SMBus) (logger : bool) (s0 : HTU21D.state) (t0 : list event),
    write_byte bus t0 HTU21D.I2C_ADDRESS HTU21D.CMD_SOFT_RESET = None ->
    exists s1 t1,
      HTU21D.init bus logger s0 t0 = (Ret tt, s1, t1)
      /\ quiet t1
         = quiet t0 ++ [EWriteByte HTU21D.I2C_ADDRESS HTU21D.CMD_SOFT_RESET]
      /\ HTU21D._temperature s1 = Int (-255)
      /\ HTU21D._humidity s1 = Int (-255)
      /\ HTU21D.sample_ok s1 = false
      /\ forall n o s' t',
           HTU21D.updates bus n s1 t1 = (o, s', t') ->
           HTU21D.sample_ok s' = false.
Proof.
  intros bus logger s0 t0 Hfail.
  assert (Hrun : exists t1,
    HTU21D.init bus logger s0 t0
    = (Ret tt,
       {| HTU21D._i2c_add := HTU21D.I2C_ADDRESS; HTU21D._ok := false;
          HTU21D._logger := logger; HTU21D._temperature := Int (-255);
          HTU21D._humidity := Int (-255) |}, t1)
    /\ quiet t1
       = quiet t0 ++ [EWriteByte HTU21D.I2C_ADDRESS HTU21D.CMD_SOFT_RESET]).
  { unfold HTU21D.init, HTU21D._soft_reset, bind, modify, get, try_except,
      call, report, emit, ret. cbn. rewrite Hfail. cbn.
    destruct logger; eexists; (split; [reflexivity|]);
      quiet_norm; rewrite ?app_nil_r; reflexivity. }
  destruct Hrun as (t1 & Hrun & Hq).
  eexists _, t1. split; [exact Hrun|]. split; [exact Hq|].
  repeat split.
  intros n o s' t' Hup.
  unfold HTU21D.sample_ok.
  rewrite (updates_stay_invalid bus n _ t1 Hup eq_refl). reflexivity.
Qed.

Lemma htu21d_failed_soft_reset_witness :
  exists s1 t1,
    HTU21D.init Examples.silent_bus false HTU21D.blank [] = (Ret tt, s1, t1)
    /\ HTU21D.sample_ok s1 = false.
Proof.
  destruct (@htu21d_failed_soft_reset Examples.silent_bus false HTU21D.blank [])
    as (s1 & t1 & Hrun & _ & _ & _ & Hok & _).
  - reflexivity.
  - exists s1, t1. split; assumption.
Defined.

(** X6.  An update whose bus calls do not all succeed returns without
    raising: the validity flag goes down and the stored temperature and
    humidity stay as they were. *)
Theorem htu21d_update_on_bus_failure :
  forall (bus : SMBus) (s : HTU21D.state) (t : list event),
    (exists blocks t1, HTU21D.read_blocks bus s t = (Ret (Some blocks), s, t1))
    \/ (exists t1,
          HTU21D.update bus s t = (Ret tt, HTU21D.set_ok false s, t1)
          /\ HTU21D.sample_ok (HTU21D.set_ok false s) = false
          /\ HTU21D._temperature (HTU21D.set_ok false s) = HTU21D._temperature s
          /\ HTU21D._humidity (HTU21D.set_ok false s) = HTU21D._humidity s).
Proof.
  intros bus s t.
  destruct (read_blocks_run bus s t) as [Hgood|[t1 Hbad]]; [left; exact Hgood|].
  right. exists t1. split.
  - unfold HTU21D.update. erewrite bind_run by exact Hbad. reflexivity.
  - repeat split.
Qed.

(** X7.  In an update that read both blocks and whose temperature block
    passes its CRC, the temperature stored lies between -46.85 and 128.87
    degrees, so that the sentinel test of [sample_ok] (above -100) cannot
    reject it. *)
Theorem htu21d_temperature_range :
  forall (bus : SMBus) (s : HTU21D.state) (t : list event)
         (t0 t1 t2 h0 h1 h2 : Z) (s1 : HTU21D.state) (tr1 : list event),
    HTU21D.read_blocks bus s t
    = (Ret (Some ([t0; t1; t2], [h0; h1; h2])), s1, tr1) ->
    HTU21D.is_byte t0 -> HTU21D.is_byte t1 ->
    HTU21D.crc8_remainder t0 t1 t2 = 0 ->
    exists s' tr' T,
      HTU21D.update bus s t = (Ret tt, s', tr')
      /\ HTU21D._temperature s' = Float T
      /\ (-46.85 <=? T)%float = true
      /\ (T <? 128.87)%float = true
      /\ gtb (HTU21D._temperature s') (Int (-100)) = true.
Proof.
  intros bus s t t0 t1 t2 h0 h1 h2 s1 tr1 Hread B0 B1 Hcrc.
  pose proof (read_blocks_some _ _ _ Hread) as ->.
  pose proof (block_temperature_range B0 B1) as Hrange.
  apply andb_true_iff in Hrange as [Hlo Hhi].
  assert (Hsent : forall a b, HTU21D.is_byte a -> HTU21D.is_byte b ->
            gtb (Float (HTU21D.block_temperature a b)) (Int (-100)) = true).
  { intros a b Ha Hb.
    assert (H : forallb
      (fun a => forallb
         (fun b => gtb (Float (HTU21D.block_temperature a b)) (Int (-100)))
         (range 0 256))
      (range 0 256) = true) by (vm_compute; reflexivity).
    pose proof (@range_forallb _ 256 0 H a
                  ltac:(unfold HTU21D.is_byte in Ha; cbn; lia)) as Hrow.
    cbv beta in Hrow.
    exact (@range_forallb _ 256 0 Hrow b
             ltac:(unfold HTU21D.is_byte in Hb; cbn; lia)). }
  unfold HTU21D.update. erewrite bind_run by exact Hread.
  destruct (Z.eq_dec (HTU21D.crc8_remainder h0 h1 h2) 0) as [Hh|Hh].
  - destruct (store_blocks_good s tr1 _ _ _ _ _ _ Hcrc Hh) as [rh Hrun].
    eexists _, _, (HTU21D.block_temperature t0 t1).
    split; [exact Hrun|]. split; [reflexivity|].
    split; [exact Hlo|]. split; [exact Hhi|]. apply Hsent; assumption.
  - eexists _, _, (HTU21D.block_temperature t0 t1).
    split; [apply (store_blocks_bad_humidity s tr1 _ _ _ _ _ _ Hcrc Hh)|].
    split; [reflexivity|].
    split; [exact Hlo|]. split; [exact Hhi|]. apply Hsent; assumption.
Qed.

Lemma htu21d_temperature_range_witness :
  exists s' tr' T,
    HTU21D.update (Examples.htu21d_bus [0x68; 0x3A; 0x7C] [0x4E; 0x85; 0x6B])
                  HTU21D.blank []
    = (Ret tt, s', tr')
    /\ HTU21D._temperature s' = Float T
    /\ (T <? 128.87)%float = true.
Proof.
  destruct (@htu21d_temperature_range
              (Examples.htu21d_bus [0x68; 0x3A; 0x7C] [0x4E; 0x85; 0x6B])
              HTU21D.blank [] 0x68 0x3A 0x7C 0x4E 0x85 0x6B
              HTU21D.blank
              [EWriteByte 0 HTU21D.CMD_READ_TEMP_NOHOLD;
               ESleep HTU21D.MEASUREMENT_WAIT_TIME;
               EReadBlockData 0 HTU21D.CMD_READ_TEMP_HOLD 3;
               EWriteByte 0 HTU21D.CMD_READ_HUM_NOHOLD;
               ESleep HTU21D.MEASUREMENT_WAIT_TIME;
               EReadBlockData 0 HTU21D.CMD_READ_HUM_HOLD 3])
    as (s' & tr' & T & Hrun & Ht & _ & Hhi & _).
  - reflexivity.
  - unfold HTU21D.is_byte. lia.
  - unfold HTU21D.is_byte. lia.
  - vm_compute. reflexivity.
  - exists s', tr', T. split; [exact Hrun|]. split; assumption.
Defined.

(* ================================================================== *)
(** * Invariants and the exceptions a method may raise *)
(* ================================================================== *)

Section Safe.

Context {S : Type} (Inv : S -> Prop) (allowed : exn -> Prop).

Lemma safe_ret {A} (a : A) (V : A -> Prop) : V a -> safe Inv allowed (ret a) V.
Proof. intros Ha s t o s' t' Hs H. inversion H. subst. split; assumption. Qed.

Lemma safe_out_of_fuel {A} (V : A -> Prop) :
  safe Inv allowed (@out_of_fuel S A) V.
Proof. intros s t o s' t' Hs H. inversion H. subst. split; [assumption|exact I]. Qed.

Lemma safe_get (V : S -> Prop) :
  (forall s, Inv s -> V s) -> safe Inv allowed get V.
Proof. intros HV s t o s' t' Hs H. inversion H. subst. split; auto. Qed.

Lemma safe_emit (e : event) (V : unit -> Prop) :
  V tt -> safe Inv allowed (emit e) V.
Proof. intros HV s t o s' t' Hs H. inversion H. subst. split; assumption. Qed.

Lemma safe_report logger level msg (V : unit -> Prop) :
  V tt -> safe Inv allowed (report logger level msg) V.
Proof. intros HV. unfold report. destruct logger; apply safe_emit, HV. Qed.

Lemma safe_modify (f : S -> S) (V : unit -> Prop) :
  V tt -> (forall s, Inv s -> Inv (f s)) -> safe Inv allowed (modify f) V.
Proof. intros HV Hf s t o s' t' Hs H. inversion H. subst. split; auto. Qed.

Lemma safe_call {A} (e : event) (answer : list event -> option A)
    (V : A -> Prop) :
  allowed OSError -> (forall t a, answer t = Some a -> V a) ->
  safe Inv allowed (call e answer) V.
Proof.
  intros Hal HV s t o s' t' Hs H. unfold call in H.
  destruct (answer t) as [a|] eqn:E; inversion H; subst; split;
    try assumption. eapply HV, E.
Qed.

Lemma safe_indexed {A} (x : option A) (V : A -> Prop) :
  (x <> None) -> (forall a, x = Some a -> V a) ->
  safe Inv allowed (indexed x) V.
Proof.
  intros Hx HV. destruct x as [a|]; [|contradiction].
  apply safe_ret. apply HV. reflexivity.
Qed.

Lemma safe_bind {A B} (m : M S A) (k : A -> M S B)
    (V : A -> Prop) (W : B -> Prop) :
  safe Inv allowed m V ->
  (forall a, V a -> safe Inv allowed (k a) W) ->
  safe Inv allowed (bind m k) W.
Proof.
  intros Hm Hk s t o s' t' Hs H. unfold bind in H.
  destruct (m s t) as [[[a|e|] s1] t1] eqn:E;
    destruct (Hm _ _ _ _ _ Hs E) as [Hs1 Ho].
  - exact (Hk a Ho _ _ _ _ _ Hs1 H).
  - inversion H. subst. split; assumption.
  - inversion H. subst. split; [assumption|exact I].
Qed.

(** A [try] whose body raises at most [OSError] beyond what is allowed. *)
Lemma safe_try_except {A} (body handler : M S A) (V : A -> Prop) :
  safe Inv (fun e => e = OSError \/ allowed e) body V ->
  safe Inv allowed handler V ->
  safe Inv allowed (try_except body handler) V.
Proof.
  intros Hb Hh s t o s' t' Hs H. unfold try_except in H.
  destruct (body s t) as [[[a|e|] s1] t1] eqn:E;
    destruct (Hb _ _ _ _ _ Hs E) as [Hs1 Ho].
  - inversion H. subst. split; assumption.
  - destruct e; try (inversion H; subst; split; [assumption|];
                     destruct Ho as [Ho|Ho]; [discriminate|exact Ho]).
    exact (Hh _ _ _ _ _ Hs1 H).
  - inversion H. subst. split; [assumption|exact I].
Qed.

Lemma safe_weaken {A} (m : M S A) (V W : A -> Prop) :
  safe Inv allowed m V -> (forall a, V a -> W a) -> safe Inv allowed m W.
Proof.
  intros Hm HVW s t o s' t' Hs H.
  destruct (Hm _ _ _ _ _ Hs H) as [Hs' Ho]. split; [assumption|].
  destruct o; auto.
Qed.

End Safe.

(* ================================================================== *)
(** * BME280: an update never raises once the tables are set *)
(* ================================================================== *)

